(** * ikago, package pcap: layer construction, ICMPv4 indicators and NAT endpoints

    A shallow embedding of [internal/pcap/layer.go].  The Go packages the
    file imports are mirrored by modules of the same name: [net] (the
    standard library's IP addresses), [gopacket] and [layers] (the data the
    packet library hands to the code), and [pcap] for the code itself.

    Conventions.
    - Unsigned machine integers are [Z]; a conversion [uintN(x)] is written
      out as a reduction modulo [2^N].
    - A Go [error] value is a term of [error]: one constructor for each
      message format the file uses, and one for [fmt.Errorf("...: %w", err)].
    - A call ends in one of three ways, [outcome]: it returns a value, it
      returns a non-nil [error] to its caller, or it panics.  A panic
      carries either the [error] given to [panic(...)] or a runtime error
      (nil pointer dereference, failed type assertion).
    - The decoders and serializers of [gopacket] are third-party code; the
      functions that call them take them as parameters. *)

From Stdlib Require Import String ZArith List Bool Lia.
From Stdlib.Strings Require Import Byte.
Import ListNotations.
Local Open Scope Z_scope.

(** ** Package [net] *)

Module net.

(** [type IP []byte]; the nil slice is the empty list. *)
Definition IP : Type := list byte.

Definition IPv4len : nat := 4.
Definition IPv6len : nat := 16.

Definition isZeros (p : list byte) : bool :=
  forallb (Byte.eqb x00) p.

(** [func (ip IP) To4() IP]: the 4-byte form of [ip], or nil ([None]) when
    [ip] is neither 4 bytes long nor an IPv4-mapped 16-byte address. *)
Definition To4 (ip : IP) : option IP :=
  if Nat.eqb (length ip) IPv4len then Some ip
  else if Nat.eqb (length ip) IPv6len
          && isZeros (firstn 10 ip)
          && Byte.eqb (nth 10 ip x00) xff
          && Byte.eqb (nth 11 ip x00) xff
       then Some (firstn 4 (skipn 12 ip))
       else None.

End net.

(** ** Package [gopacket] *)

Module gopacket.

(** [type LayerType int64].  The registered layer types the file names,
    the zero value, and every other registered type by its name. *)
Inductive LayerType : Type :=
| LayerTypeZero
| LayerTypeIPv4
| LayerTypeIPv6
| LayerTypeTCP
| LayerTypeUDP
| LayerTypeICMPv4
| LayerTypeOther (name : string).

Definition LayerType_eq_dec (a b : LayerType) : {a = b} + {a <> b}.
Proof. decide equality; apply string_dec. Defined.

Definition LayerType_eqb (a b : LayerType) : bool :=
  if LayerType_eq_dec a b then true else false.

(** [type SerializeOptions struct { FixLengths, ComputeChecksums bool }] *)
Record SerializeOptions : Type := {
  FixLengths : bool;
  ComputeChecksums : bool
}.

End gopacket.

(** ** Package [layers] *)

Module layers.
Import gopacket.

Definition uint8 (z : Z) : Z := z mod 256.
Definition uint16 (z : Z) : Z := z mod 65536.

(** [type ICMPv4TypeCode uint16]: the type in the high byte, the code in
    the low byte. *)
Definition ICMPv4TypeCode : Type := Z.

Definition CreateICMPv4TypeCode (typ code : Z) : ICMPv4TypeCode :=
  Z.lor (Z.shiftl (uint16 typ) 8) (uint16 code).

(** [func (a ICMPv4TypeCode) Type() uint8 { return uint8(a >> 8) }] *)
Definition Type_ (a : ICMPv4TypeCode) : Z := uint8 (Z.shiftr a 8).

Definition ICMPv4TypeEchoReply : Z := 0.
Definition ICMPv4TypeDestinationUnreachable : Z := 3.
Definition ICMPv4TypeSourceQuench : Z := 4.
Definition ICMPv4TypeRedirect : Z := 5.
Definition ICMPv4TypeEchoRequest : Z := 8.
Definition ICMPv4TypeRouterAdvertisement : Z := 9.
Definition ICMPv4TypeRouterSolicitation : Z := 10.
Definition ICMPv4TypeTimeExceeded : Z := 11.
Definition ICMPv4TypeParameterProblem : Z := 12.
Definition ICMPv4TypeTimestampRequest : Z := 13.
Definition ICMPv4TypeTimestampReply : Z := 14.
Definition ICMPv4TypeInfoRequest : Z := 15.
Definition ICMPv4TypeInfoReply : Z := 16.
Definition ICMPv4TypeAddressMaskRequest : Z := 17.
Definition ICMPv4TypeAddressMaskReply : Z := 18.

Definition IPProtocolTCP : Z := 6.
Definition IPProtocolUDP : Z := 17.

(** [IPv4DontFragment IPv4Flag = 1 << 1] *)
Definition IPv4DontFragment : Z := 2.

Module IPv4.
Record t : Type := mk {
  Version : Z;
  IHL : Z;
  TOS : Z;
  Length : Z;
  Id : Z;
  Flags : Z;
  FragOffset : Z;
  TTL : Z;
  Protocol : Z;
  Checksum : Z;
  SrcIP : net.IP;
  DstIP : net.IP
}.

(** The assignment [l.Protocol = p]. *)
Definition set_Protocol (p : Z) (l : t) : t :=
  mk (Version l) (IHL l) (TOS l) (Length l) (Id l) (Flags l) (FragOffset l)
     (TTL l) p (Checksum l) (SrcIP l) (DstIP l).
End IPv4.

Module IPv6.
Record t : Type := mk {
  SrcIP : net.IP;
  DstIP : net.IP
}.
End IPv6.

Module TCP.
Record t : Type := mk {
  SrcPort : Z;
  DstPort : Z;
  Seq : Z;
  Ack : Z;
  DataOffset : Z;
  FIN : bool;
  SYN : bool;
  RST : bool;
  PSH : bool;
  ACK : bool;
  URG : bool;
  Window : Z;
  Checksum : Z;
  Urgent : Z
}.
End TCP.

Module UDP.
Record t : Type := mk {
  SrcPort : Z;
  DstPort : Z;
  Length : Z;
  Checksum : Z
}.
End UDP.

Module ICMPv4.
Record t : Type := mk {
  TypeCode : ICMPv4TypeCode;
  Checksum : Z;
  Id : Z;
  Seq : Z;
  Payload : list byte
}.
End ICMPv4.

Definition EthernetTypeIPv4 : Z := 0x0800.
Definition EthernetTypeIPv6 : Z := 0x86DD.

Module Ethernet.
Record t : Type := mk {
  SrcMAC : list byte;
  DstMAC : list byte;
  EthernetType : Z
}.
End Ethernet.

(** A non-nil value of the interface [gopacket.Layer]: a pointer to one of
    the layer structs the file handles, or any other layer of the library,
    known by its type alone. *)
Inductive Layer : Type :=
| LayerIPv4 (l : IPv4.t)
| LayerIPv6 (l : IPv6.t)
| LayerTCP (l : TCP.t)
| LayerUDP (l : UDP.t)
| LayerICMPv4 (l : ICMPv4.t)
| LayerOther (name : string).

(** The method [LayerType()] of each layer. *)
Definition LayerType_of (l : Layer) : LayerType :=
  match l with
  | LayerIPv4 _ => LayerTypeIPv4
  | LayerIPv6 _ => LayerTypeIPv6
  | LayerTCP _ => LayerTypeTCP
  | LayerUDP _ => LayerTypeUDP
  | LayerICMPv4 _ => LayerTypeICMPv4
  | LayerOther name => LayerTypeOther name
  end.

(** A non-nil value of the interface [gopacket.NetworkLayer]: of the layer
    structs above the IPv4 and the IPv6 layer implement it; a value of any
    other implementing type is known by its layer type alone. *)
Inductive NetworkLayer : Type :=
| NetworkLayerIPv4 (l : IPv4.t)
| NetworkLayerIPv6 (l : IPv6.t)
| NetworkLayerOther (name : string).

Definition NetworkLayerType_of (l : NetworkLayer) : LayerType :=
  match l with
  | NetworkLayerIPv4 _ => LayerTypeIPv4
  | NetworkLayerIPv6 _ => LayerTypeIPv6
  | NetworkLayerOther name => LayerTypeOther name
  end.

End layers.

(** ** Package [pcap] *)

Module pcap.
Import gopacket layers.
Local Open Scope string_scope.
Local Open Scope Z_scope.

(** *** Errors, panics and outcomes *)

Inductive error : Type :=
| errors_New (text : string)
  (** [errors.New(text)] *)
| Errorf_wrap (prefix : string) (err : error)
  (** [fmt.Errorf("<prefix>: %w", err)] *)
| Errorf_invalid_ipv4_address (ip : net.IP)
  (** [fmt.Errorf("invalid ipv4 address %s", ip)] *)
| Errorf_invalid_ipv6_address (ip : net.IP)
  (** [fmt.Errorf("invalid ipv6 address %s", ip)] *)
| Errorf_transport_layer_type_not_support (t : LayerType)
  (** [fmt.Errorf("transport layer type %s not support", t)] *)
| Errorf_layer_type_not_support (t : LayerType)
  (** [fmt.Errorf("type %s not support", t)], [t] a layer type *)
| Errorf_icmp_type_not_support (t : Z)
  (** [fmt.Errorf("type %d not support", t)], [t] an ICMPv4 type *)
| Errorf_ip_version_not_support (v : Z)
  (** [fmt.Errorf("ip version %d not support", v)] *).

Inductive runtimeError : Type :=
| nilPointerDereference
| interfaceConversion
| indexOutOfRange.

(** The value a panic carries: the argument of [panic(err)], or the
    runtime's own error. *)
Inductive panicValue : Type :=
| panicError (err : error)
| panicRuntime (r : runtimeError).

Inductive outcome (A : Type) : Type :=
| Return (a : A)
| Error (err : error)
| Panic (v : panicValue).

Arguments Return {A} a.
Arguments Error {A} err.
Arguments Panic {A} v.

(** Sequencing of calls: what follows a call runs only when it returned. *)
Definition bind {A B : Type} (m : outcome A) (k : A -> outcome B) : outcome B :=
  match m with
  | Return a => k a
  | Error err => Error err
  | Panic v => Panic v
  end.

Notation "x <- m ;; k" := (bind m (fun x => k))
  (at level 61, m at next level, right associativity).

(** [p.f] for a pointer [p]: a nil pointer dereference panics. *)
Definition deref {A : Type} (p : option A) : outcome A :=
  match p with
  | Some a => Return a
  | None => Panic (panicRuntime nilPointerDereference)
  end.

Definition isNil {A : Type} (p : option A) : bool :=
  match p with
  | Some _ => false
  | None => true
  end.

(** [switch t { case c1, c2, ...: }]: whether [t] is one of the case's
    values. *)
Definition caseOf (t : Z) (cases : list Z) : bool :=
  existsb (Z.eqb t) cases.

(** *** Transport layers *)

Definition createTCPLayerSYN (srcPort dstPort seq : Z) : TCP.t :=
  {| TCP.SrcPort := srcPort; TCP.DstPort := dstPort; TCP.Seq := seq;
     TCP.Ack := 0; TCP.DataOffset := 5;
     TCP.FIN := false; TCP.SYN := true; TCP.RST := false; TCP.PSH := false;
     TCP.ACK := false; TCP.URG := false;
     TCP.Window := 65535; TCP.Checksum := 0; TCP.Urgent := 0 |}.

Definition createTCPLayerSYNACK (srcPort dstPort seq ack : Z) : TCP.t :=
  {| TCP.SrcPort := srcPort; TCP.DstPort := dstPort; TCP.Seq := seq;
     TCP.Ack := ack; TCP.DataOffset := 5;
     TCP.FIN := false; TCP.SYN := true; TCP.RST := false; TCP.PSH := false;
     TCP.ACK := true; TCP.URG := false;
     TCP.Window := 65535; TCP.Checksum := 0; TCP.Urgent := 0 |}.

Definition createTCPLayerACK (srcPort dstPort seq ack : Z) : TCP.t :=
  {| TCP.SrcPort := srcPort; TCP.DstPort := dstPort; TCP.Seq := seq;
     TCP.Ack := ack; TCP.DataOffset := 5;
     TCP.FIN := false; TCP.SYN := false; TCP.RST := false; TCP.PSH := false;
     TCP.ACK := true; TCP.URG := false;
     TCP.Window := 65535; TCP.Checksum := 0; TCP.Urgent := 0 |}.

Definition createTransportLayerTCP (srcPort dstPort seq ack : Z) : TCP.t :=
  {| TCP.SrcPort := srcPort; TCP.DstPort := dstPort; TCP.Seq := seq;
     TCP.Ack := ack; TCP.DataOffset := 5;
     TCP.FIN := false; TCP.SYN := false; TCP.RST := false; TCP.PSH := true;
     TCP.ACK := true; TCP.URG := false;
     TCP.Window := 65535; TCP.Checksum := 0; TCP.Urgent := 0 |}.

Definition createTransportLayerUDP (srcPort dstPort : Z) : UDP.t :=
  {| UDP.SrcPort := srcPort; UDP.DstPort := dstPort;
     UDP.Length := 0; UDP.Checksum := 0 |}.

(** *** Network layers *)

Section NetworkLayer.

(** [SetNetworkLayerForChecksum] of [*layers.TCP] and of [*layers.UDP]:
    the library binds the network layer whose addresses enter the checksum's
    pseudo-header, and answers nil (here: the bound layer) or an error. *)
Variable TCP_SetNetworkLayerForChecksum : TCP.t -> IPv4.t -> outcome TCP.t.
Variable UDP_SetNetworkLayerForChecksum : UDP.t -> IPv4.t -> outcome UDP.t.

(** The interface [transportLayer] may be nil ([None]); its method
    [LayerType()] is then a nil dereference.  The result is the new IPv4
    layer together with the transport layer as the call leaves it. *)
Definition createNetworkLayerIPv4 (srcIP dstIP : net.IP) (id ttl : Z)
    (transportLayer : option Layer) : outcome (IPv4.t * Layer) :=
  if isNil (net.To4 srcIP) || isNil (net.To4 dstIP) then
    Error (Errorf_wrap "create network layer" (Errorf_invalid_ipv4_address srcIP))
  else
    let ipv4Layer :=
      {| IPv4.Version := 4; IPv4.IHL := 5; IPv4.TOS := 0; IPv4.Length := 0;
         IPv4.Id := id; IPv4.Flags := IPv4DontFragment; IPv4.FragOffset := 0;
         IPv4.TTL := ttl; IPv4.Protocol := 0; IPv4.Checksum := 0;
         IPv4.SrcIP := srcIP; IPv4.DstIP := dstIP |} in
    transportLayer <- deref transportLayer ;;
    let transportLayerType := LayerType_of transportLayer in
    match transportLayerType with
    | LayerTypeTCP =>
        let ipv4Layer := IPv4.set_Protocol IPProtocolTCP ipv4Layer in
        match transportLayer with
        | LayerTCP tcpLayer =>
            match TCP_SetNetworkLayerForChecksum tcpLayer ipv4Layer with
            | Return tcpLayer => Return (ipv4Layer, LayerTCP tcpLayer)
            | Error err => Error (Errorf_wrap "create network layer" err)
            | Panic v => Panic v
            end
        | _ => Panic (panicRuntime interfaceConversion)
        end
    | LayerTypeUDP =>
        let ipv4Layer := IPv4.set_Protocol IPProtocolUDP ipv4Layer in
        match transportLayer with
        | LayerUDP udpLayer =>
            match UDP_SetNetworkLayerForChecksum udpLayer ipv4Layer with
            | Return udpLayer => Return (ipv4Layer, LayerUDP udpLayer)
            | Error err => Error (Errorf_wrap "create network layer" err)
            | Panic v => Panic v
            end
        | _ => Panic (panicRuntime interfaceConversion)
        end
    | _ =>
        Error (Errorf_wrap "create network layer"
                 (Errorf_transport_layer_type_not_support transportLayerType))
    end.

End NetworkLayer.

Definition createNetworkLayerIPv6 (srcIP dstIP : net.IP)
    (transportLayer : option Layer) : outcome IPv6.t :=
  if negb (isNil (net.To4 srcIP)) || negb (isNil (net.To4 dstIP)) then
    Error (Errorf_wrap "create network layer" (Errorf_invalid_ipv6_address srcIP))
  else
    Error (Errorf_wrap "create network layer" (errors_New "ipv6 not support")).

(** *** Link layers *)

Definition createLinkLayerEthernet (srcMAC dstMAC : list byte)
    (networkLayer : option NetworkLayer) : outcome Ethernet.t :=
  networkLayer <- deref networkLayer ;;
  let networkLayerType := NetworkLayerType_of networkLayer in
  match networkLayerType with
  | LayerTypeIPv4 =>
      Return {| Ethernet.SrcMAC := srcMAC; Ethernet.DstMAC := dstMAC;
                Ethernet.EthernetType := EthernetTypeIPv4 |}
  | LayerTypeIPv6 =>
      Return {| Ethernet.SrcMAC := srcMAC; Ethernet.DstMAC := dstMAC;
                Ethernet.EthernetType := EthernetTypeIPv6 |}
  | _ =>
      Error (Errorf_wrap "create link layer"
               (Errorf_layer_type_not_support networkLayerType))
  end.

(** *** Serialization *)

Section Serialize.

(** [gopacket.SerializeLayers] into a fresh buffer, followed by
    [buffer.Bytes()]: the bytes written, or the library's error. *)
Variable SerializeLayers : SerializeOptions -> list Layer -> outcome (list byte).

Definition serialize (layers : list Layer) : outcome (list byte) :=
  let options := {| FixLengths := true; ComputeChecksums := true |} in
  match SerializeLayers options layers with
  | Return bytes => Return bytes
  | Error err => Error (Errorf_wrap "serialize" err)
  | Panic v => Panic v
  end.

Definition serializeRaw (layers : list Layer) : outcome (list byte) :=
  let options := {| FixLengths := false; ComputeChecksums := false |} in
  match SerializeLayers options layers with
  | Return bytes => Return bytes
  | Error err => Error (Errorf_wrap "serialize" err)
  | Panic v => Panic v
  end.

End Serialize.

(** *** NAT endpoints *)

(** Modelled from the spec: the endpoint types [IPPort], [IPId] and [IP]
    and the interface [IPEndpoint] they implement are declared in another
    file of the package; section 3 of the specification gives the three
    shapes ([AddressPort], [AddressId], [AddressOnly]) and the code below
    gives their field names. *)
Inductive IPEndpoint : Type :=
| IPPort (ip : net.IP) (port : Z)
| IPId (ip : net.IP) (id : Z)
| IP (ip : net.IP).

(** *** ICMPv4 indicators *)

(** The pointer [embIPv4Layer] and the interface [embTransportLayer] are
    nil ([None]) in the indicator of a query.  The pointer [layer] is the
    message the indicator was made for; every function that reads the
    indicator dereferences it first, and it is taken non-nil. *)
Record icmpv4Indicator : Type := {
  layer : ICMPv4.t;
  embIPv4Layer : option IPv4.t;
  embTransportLayer : option Layer;
  embTransportLayerType : LayerType
}.

Section Decode.

(** [gopacket.NewPacket(data, layers.LayerTypeIPv4, gopacket.Default).Layers()]:
    the layers the library decodes from [data], outermost first. *)
Variable NewPacket : list byte -> list Layer.

Definition parseICMPv4Layer (layer : ICMPv4.t) : outcome icmpv4Indicator :=
  let t := Type_ (ICMPv4.TypeCode layer) in
  if caseOf t [ICMPv4TypeEchoReply;
               ICMPv4TypeEchoRequest;
               ICMPv4TypeRouterAdvertisement;
               ICMPv4TypeRouterSolicitation;
               ICMPv4TypeTimestampRequest;
               ICMPv4TypeTimestampReply;
               ICMPv4TypeInfoRequest;
               ICMPv4TypeInfoReply;
               ICMPv4TypeAddressMaskRequest;
               ICMPv4TypeAddressMaskReply]
  then
    Return {| layer := layer;
              embIPv4Layer := None;
              embTransportLayer := None;
              embTransportLayerType := LayerTypeZero |}
  else if caseOf t [ICMPv4TypeDestinationUnreachable;
                    ICMPv4TypeSourceQuench;
                    ICMPv4TypeRedirect;
                    ICMPv4TypeTimeExceeded;
                    ICMPv4TypeParameterProblem]
  then
    let packet := NewPacket (ICMPv4.Payload layer) in
    if (length packet <=? 0)%nat then
      Error (Errorf_wrap "parse icmp v4 layer" (errors_New "missing network layer"))
    else if (length packet <=? 1)%nat then
      Error (Errorf_wrap "parse icmp v4 layer" (errors_New "missing transport layer"))
    else
      match packet with
      | networkLayer :: embTransportLayer :: _ =>
          if negb (LayerType_eqb (LayerType_of networkLayer) LayerTypeIPv4) then
            Error (Errorf_wrap "parse icmp v4 layer"
                     (errors_New "network layer type not support"))
          else
            match networkLayer with
            | LayerIPv4 embIPv4Layer =>
                if negb (IPv4.Version embIPv4Layer =? 4) then
                  Error (Errorf_wrap "parse icmp v4 layer"
                           (Errorf_ip_version_not_support (IPv4.Version embIPv4Layer)))
                else
                  Return {| layer := layer;
                            embIPv4Layer := Some embIPv4Layer;
                            embTransportLayer := Some embTransportLayer;
                            embTransportLayerType := LayerType_of embTransportLayer |}
            | _ => Panic (panicRuntime interfaceConversion)
            end
      | _ => Panic (panicRuntime indexOutOfRange)
      end
  else
    Error (Errorf_wrap "parse icmp v4 layer" (Errorf_icmp_type_not_support t)).

(** The Go function takes a pointer, [layer *layers.ICMPv4]; the definition
    above is its body on the message a non-nil pointer points to.  On a nil
    pointer the first statement, [layer.TypeCode.Type()], is a nil
    dereference. *)
Definition parseICMPv4Layer_ptr (layer : option ICMPv4.t) : outcome icmpv4Indicator :=
  layer <- deref layer ;;
  parseICMPv4Layer layer.

End Decode.

Definition newPureICMPv4Layer (indicator : icmpv4Indicator) : ICMPv4.t :=
  {| ICMPv4.TypeCode := ICMPv4.TypeCode (layer indicator);
     ICMPv4.Checksum := 0;
     ICMPv4.Id := ICMPv4.Id (layer indicator);
     ICMPv4.Seq := ICMPv4.Seq (layer indicator);
     ICMPv4.Payload := [] |}.

Definition isQuery (indicator : icmpv4Indicator) : outcome bool :=
  let t := Type_ (ICMPv4.TypeCode (layer indicator)) in
  if caseOf t [ICMPv4TypeEchoReply;
               ICMPv4TypeEchoRequest;
               ICMPv4TypeRouterAdvertisement;
               ICMPv4TypeRouterSolicitation;
               ICMPv4TypeTimestampRequest;
               ICMPv4TypeTimestampReply;
               ICMPv4TypeInfoRequest;
               ICMPv4TypeInfoReply;
               ICMPv4TypeAddressMaskRequest;
               ICMPv4TypeAddressMaskReply]
  then Return true
  else if caseOf t [ICMPv4TypeDestinationUnreachable;
                    ICMPv4TypeSourceQuench;
                    ICMPv4TypeRedirect;
                    ICMPv4TypeTimeExceeded;
                    ICMPv4TypeParameterProblem]
  then Return false
  else Panic (panicError (Errorf_wrap "is query" (Errorf_icmp_type_not_support t))).

Definition embSrcIP (indicator : icmpv4Indicator) : outcome net.IP :=
  l <- deref (embIPv4Layer indicator) ;;
  Return (IPv4.SrcIP l).

Definition embDstIP (indicator : icmpv4Indicator) : outcome net.IP :=
  l <- deref (embIPv4Layer indicator) ;;
  Return (IPv4.DstIP l).

(** The three functions below return a pointer, nil when the recorded type
    is another one; the type assertion panics unless the interface holds a
    layer of the asserted type. *)
Definition embTCPLayer (indicator : icmpv4Indicator) : outcome (option TCP.t) :=
  if LayerType_eqb (embTransportLayerType indicator) LayerTypeTCP then
    match embTransportLayer indicator with
    | Some (LayerTCP l) => Return (Some l)
    | _ => Panic (panicRuntime interfaceConversion)
    end
  else Return None.

Definition embUDPLayer (indicator : icmpv4Indicator) : outcome (option UDP.t) :=
  if LayerType_eqb (embTransportLayerType indicator) LayerTypeUDP then
    match embTransportLayer indicator with
    | Some (LayerUDP l) => Return (Some l)
    | _ => Panic (panicRuntime interfaceConversion)
    end
  else Return None.

Definition embICMPv4Layer (indicator : icmpv4Indicator) : outcome (option ICMPv4.t) :=
  if LayerType_eqb (embTransportLayerType indicator) LayerTypeICMPv4 then
    match embTransportLayer indicator with
    | Some (LayerICMPv4 l) => Return (Some l)
    | _ => Panic (panicRuntime interfaceConversion)
    end
  else Return None.

Definition id (indicator : icmpv4Indicator) : Z :=
  ICMPv4.Id (layer indicator).

Definition embId (indicator : icmpv4Indicator) : outcome Z :=
  match embTransportLayerType indicator with
  | LayerTypeICMPv4 =>
      p <- embICMPv4Layer indicator ;;
      l <- deref p ;;
      Return (uint16 (ICMPv4.Id l))
  | t => Panic (panicError (Errorf_wrap "emb id" (Errorf_layer_type_not_support t)))
  end.

Definition embSrcPort (indicator : icmpv4Indicator) : outcome Z :=
  match embTransportLayerType indicator with
  | LayerTypeTCP =>
      p <- embTCPLayer indicator ;;
      l <- deref p ;;
      Return (uint16 (TCP.SrcPort l))
  | LayerTypeUDP =>
      p <- embUDPLayer indicator ;;
      l <- deref p ;;
      Return (uint16 (UDP.SrcPort l))
  | t => Panic (panicError (Errorf_wrap "emb src port" (Errorf_layer_type_not_support t)))
  end.

Definition embDstPort (indicator : icmpv4Indicator) : outcome Z :=
  match embTransportLayerType indicator with
  | LayerTypeTCP =>
      p <- embTCPLayer indicator ;;
      l <- deref p ;;
      Return (uint16 (TCP.DstPort l))
  | LayerTypeUDP =>
      p <- embUDPLayer indicator ;;
      l <- deref p ;;
      Return (uint16 (UDP.DstPort l))
  | t => Panic (panicError (Errorf_wrap "emb dst port" (Errorf_layer_type_not_support t)))
  end.

Definition isEmbQuery (indicator : icmpv4Indicator) : outcome bool :=
  p <- embICMPv4Layer indicator ;;
  l <- deref p ;;
  let t := Type_ (ICMPv4.TypeCode l) in
  if caseOf t [ICMPv4TypeEchoReply;
               ICMPv4TypeEchoRequest;
               ICMPv4TypeRouterAdvertisement;
               ICMPv4TypeRouterSolicitation;
               ICMPv4TypeTimestampRequest;
               ICMPv4TypeTimestampReply;
               ICMPv4TypeInfoRequest;
               ICMPv4TypeInfoReply;
               ICMPv4TypeAddressMaskRequest;
               ICMPv4TypeAddressMaskReply]
  then Return true
  else if caseOf t [ICMPv4TypeDestinationUnreachable;
                    ICMPv4TypeSourceQuench;
                    ICMPv4TypeRedirect;
                    ICMPv4TypeTimeExceeded;
                    ICMPv4TypeParameterProblem]
  then Return false
  else Panic (panicError (Errorf_wrap "is emb query" (Errorf_icmp_type_not_support t))).

Definition natSrc (indicator : icmpv4Indicator) : outcome IPEndpoint :=
  q <- isQuery indicator ;;
  if (q : bool) then
    Panic (panicError (Errorf_wrap "src" (errors_New "icmpv4 query not support")))
  else
    (* Flip source and destination *)
    match embTransportLayerType indicator with
    | LayerTypeTCP | LayerTypeUDP =>
        ip <- embDstIP indicator ;;
        port <- embDstPort indicator ;;
        Return (IPPort ip port)
    | LayerTypeICMPv4 =>
        e <- isEmbQuery indicator ;;
        if (e : bool) then
          ip <- embDstIP indicator ;;
          id <- embId indicator ;;
          Return (IPId ip id)
        else
          ip <- embDstIP indicator ;;
          Return (IP ip)
    | t => Panic (panicError (Errorf_wrap "src" (Errorf_layer_type_not_support t)))
    end.

Definition natDst (indicator : icmpv4Indicator) : outcome IPEndpoint :=
  q <- isQuery indicator ;;
  if (q : bool) then
    Panic (panicError (Errorf_wrap "dst" (errors_New "icmpv4 query not support")))
  else
    (* Flip source and destination *)
    match embTransportLayerType indicator with
    | LayerTypeTCP | LayerTypeUDP =>
        ip <- embSrcIP indicator ;;
        port <- embSrcPort indicator ;;
        Return (IPPort ip port)
    | LayerTypeICMPv4 =>
        e <- isEmbQuery indicator ;;
        if (e : bool) then
          ip <- embSrcIP indicator ;;
          id <- embId indicator ;;
          Return (IPId ip id)
        else
          ip <- embSrcIP indicator ;;
          Return (IP ip)
    | t => Panic (panicError (Errorf_wrap "dst" (Errorf_layer_type_not_support t)))
    end.

(** *** The two classes of ICMPv4 types, and sample data *)

(** The values of the first and of the second case of the three type
    switches ([parseICMPv4Layer], [isQuery], [isEmbQuery]). *)
Definition queryTypes : list Z :=
  [ICMPv4TypeEchoReply;
   ICMPv4TypeEchoRequest;
   ICMPv4TypeRouterAdvertisement;
   ICMPv4TypeRouterSolicitation;
   ICMPv4TypeTimestampRequest;
   ICMPv4TypeTimestampReply;
   ICMPv4TypeInfoRequest;
   ICMPv4TypeInfoReply;
   ICMPv4TypeAddressMaskRequest;
   ICMPv4TypeAddressMaskReply].

Definition errorTypes : list Z :=
  [ICMPv4TypeDestinationUnreachable;
   ICMPv4TypeSourceQuench;
   ICMPv4TypeRedirect;
   ICMPv4TypeTimeExceeded;
   ICMPv4TypeParameterProblem].

(** A decoder that answers the given layers: the library's answer on the
    payload at hand, fixed for an example. *)
Definition decoded (packet : list Layer) : list byte -> list Layer :=
  fun _ => packet.

(** 10.0.0.5, 8.8.8.8, 2001:db8::1 and ::ffff:10.0.0.5 *)
Definition ip_10_0_0_5 : net.IP := [x0a; x00; x00; x05].
Definition ip_8_8_8_8 : net.IP := [x08; x08; x08; x08].
Definition ip_2001_db8_1 : net.IP :=
  [x20; x01; x0d; xb8; x00; x00; x00; x00; x00; x00; x00; x00; x00; x00; x00; x01].
Definition ip_mapped_10_0_0_5 : net.IP :=
  [x00; x00; x00; x00; x00; x00; x00; x00; x00; x00; xff; xff; x0a; x00; x00; x05].

(** An IPv4 header from [src] to [dst] carrying [protocol]. *)
Definition ipv4Header (version protocol : Z) (src dst : net.IP) : IPv4.t :=
  {| IPv4.Version := version; IPv4.IHL := 5; IPv4.TOS := 0; IPv4.Length := 28;
     IPv4.Id := 1; IPv4.Flags := IPv4DontFragment; IPv4.FragOffset := 0;
     IPv4.TTL := 64; IPv4.Protocol := protocol; IPv4.Checksum := 0;
     IPv4.SrcIP := src; IPv4.DstIP := dst |}.

(** An ICMPv4 message of type [typ], code 0, identifier [id]. *)
Definition icmpv4Message (typ id : Z) (payload : list byte) : ICMPv4.t :=
  {| ICMPv4.TypeCode := CreateICMPv4TypeCode typ 0; ICMPv4.Checksum := 0;
     ICMPv4.Id := id; ICMPv4.Seq := 1; ICMPv4.Payload := payload |}.

(** The indicator of an error message of type [typ] around [h] and [l]. *)
Definition errorIndicator (typ : Z) (h : IPv4.t) (l : Layer) : icmpv4Indicator :=
  {| layer := icmpv4Message typ 0 [];
     embIPv4Layer := Some h;
     embTransportLayer := Some l;
     embTransportLayerType := LayerType_of l |}.

(** The indicator of a destination-unreachable message around a TCP SYN
    from 10.0.0.5:1234 to 8.8.8.8:80. *)
Definition unreachableTCPIndicator : icmpv4Indicator :=
  errorIndicator ICMPv4TypeDestinationUnreachable
    (ipv4Header 4 IPProtocolTCP ip_10_0_0_5 ip_8_8_8_8)
    (LayerTCP (createTCPLayerSYN 1234 80 1000)).

(** The zero values of the structs [layers.IPv4] and [layers.TCP]. *)
Definition zeroIPv4 : IPv4.t :=
  {| IPv4.Version := 0; IPv4.IHL := 0; IPv4.TOS := 0; IPv4.Length := 0;
     IPv4.Id := 0; IPv4.Flags := 0; IPv4.FragOffset := 0;
     IPv4.TTL := 0; IPv4.Protocol := 0; IPv4.Checksum := 0;
     IPv4.SrcIP := []; IPv4.DstIP := [] |}.

Definition zeroTCP : TCP.t :=
  {| TCP.SrcPort := 0; TCP.DstPort := 0; TCP.Seq := 0; TCP.Ack := 0;
     TCP.DataOffset := 0;
     TCP.FIN := false; TCP.SYN := false; TCP.RST := false; TCP.PSH := false;
     TCP.ACK := false; TCP.URG := false;
     TCP.Window := 0; TCP.Checksum := 0; TCP.Urgent := 0 |}.

(** The first 28 bytes of a TCP segment from 10.0.0.5:1234 to 8.8.8.8:80
    with sequence number 1000: a 20-byte IPv4 header (total length 40,
    identification 1, don't fragment, TTL 64, protocol 6) and the first 8
    bytes of the TCP header; and the header as a layer. *)
Definition truncatedTCPBytes : list byte :=
  [x45; x00; x00; x28; x00; x01; x40; x00; x40; x06; x20; xbb;
   x0a; x00; x00; x05; x08; x08; x08; x08;
   x04; xd2; x00; x50; x00; x00; x03; xe8].

Definition truncatedTCPHeader : IPv4.t :=
  {| IPv4.Version := 4; IPv4.IHL := 5; IPv4.TOS := 0; IPv4.Length := 40;
     IPv4.Id := 1; IPv4.Flags := IPv4DontFragment; IPv4.FragOffset := 0;
     IPv4.TTL := 64; IPv4.Protocol := IPProtocolTCP; IPv4.Checksum := 0x20bb;
     IPv4.SrcIP := ip_10_0_0_5; IPv4.DstIP := ip_8_8_8_8 |}.

(** The indicator [parseICMPv4Layer] returns for an echo request. *)
Definition echoRequestIndicator : icmpv4Indicator :=
  {| layer := icmpv4Message ICMPv4TypeEchoRequest 7 [];
     embIPv4Layer := None;
     embTransportLayer := None;
     embTransportLayerType := LayerTypeZero |}.

(** *** Basic facts *)

Lemma caseOf_In (t : Z) (cases : list Z) : caseOf t cases = true <-> In t cases.
Proof.
  unfold caseOf. rewrite existsb_exists. split.
  - intros [x [Hin Heq]]. apply Z.eqb_eq in Heq. now subst.
  - intros Hin. exists t. split; [assumption | apply Z.eqb_refl].
Qed.

Lemma caseOf_not_In (t : Z) (cases : list Z) : caseOf t cases = false <-> ~ In t cases.
Proof.
  rewrite <- caseOf_In. destruct (caseOf t cases); split; intros H;
    try reflexivity; try discriminate; try (intros H'; discriminate).
  exfalso. now apply H.
Qed.

(** Membership of a closed ICMPv4 type in a case list, by evaluation. *)
Ltac in_cases :=
  first [apply caseOf_In; reflexivity | apply caseOf_not_In; reflexivity].

Lemma query_not_error (t : Z) : In t queryTypes -> ~ In t errorTypes.
Proof.
  intros Hq He. rewrite <- caseOf_In in Hq, He. unfold caseOf in *. cbn in Hq, He.
  repeat match type of Hq with
         | context [Z.eqb t ?c] => destruct (Z.eqb_spec t c); [subst; discriminate He |]
         end.
  discriminate Hq.
Qed.

Lemma LayerType_eqb_eq (a b : LayerType) : LayerType_eqb a b = true <-> a = b.
Proof.
  unfold LayerType_eqb. destruct (LayerType_eq_dec a b); split; intros H;
    congruence.
Qed.

Lemma LayerType_eqb_neq (a b : LayerType) : a <> b -> LayerType_eqb a b = false.
Proof.
  intros H. destruct (LayerType_eqb a b) eqn:E; [| reflexivity].
  apply LayerType_eqb_eq in E. contradiction.
Qed.

(** The three switches, with the case lists by name. *)
Lemma isQuery_eq (i : icmpv4Indicator) :
  isQuery i =
  let t := Type_ (ICMPv4.TypeCode (layer i)) in
  if caseOf t queryTypes then Return true
  else if caseOf t errorTypes then Return false
  else Panic (panicError (Errorf_wrap "is query" (Errorf_icmp_type_not_support t))).
Proof. reflexivity. Qed.

Lemma isQuery_query (i : icmpv4Indicator) :
  In (Type_ (ICMPv4.TypeCode (layer i))) queryTypes -> isQuery i = Return true.
Proof.
  intros H. rewrite isQuery_eq. cbv zeta.
  apply caseOf_In in H. now rewrite H.
Qed.

Lemma isQuery_error (i : icmpv4Indicator) :
  In (Type_ (ICMPv4.TypeCode (layer i))) errorTypes -> isQuery i = Return false.
Proof.
  intros H. rewrite isQuery_eq. cbv zeta.
  assert (Hq : caseOf (Type_ (ICMPv4.TypeCode (layer i))) queryTypes = false).
  { apply caseOf_not_In. intros Hq. exact (query_not_error _ Hq H). }
  apply caseOf_In in H. now rewrite Hq, H.
Qed.

Lemma isQuery_other (i : icmpv4Indicator) :
  ~ In (Type_ (ICMPv4.TypeCode (layer i))) queryTypes ->
  ~ In (Type_ (ICMPv4.TypeCode (layer i))) errorTypes ->
  isQuery i = Panic (panicError (Errorf_wrap "is query"
                (Errorf_icmp_type_not_support (Type_ (ICMPv4.TypeCode (layer i)))))).
Proof.
  intros Hq He. rewrite isQuery_eq. cbv zeta.
  apply caseOf_not_In in Hq, He. now rewrite Hq, He.
Qed.

(** *** What [parseICMPv4Layer] returns *)

Section ParseFacts.

Variable NewPacket : list byte -> list Layer.

Lemma parseICMPv4Layer_query (m : ICMPv4.t) :
  In (Type_ (ICMPv4.TypeCode m)) queryTypes ->
  parseICMPv4Layer NewPacket m =
  Return {| layer := m; embIPv4Layer := None; embTransportLayer := None;
            embTransportLayerType := LayerTypeZero |}.
Proof.
  intros H. apply caseOf_In in H. unfold parseICMPv4Layer. cbv zeta.
  fold queryTypes. now rewrite H.
Qed.

Lemma parseICMPv4Layer_other (m : ICMPv4.t) :
  ~ In (Type_ (ICMPv4.TypeCode m)) queryTypes ->
  ~ In (Type_ (ICMPv4.TypeCode m)) errorTypes ->
  parseICMPv4Layer NewPacket m =
  Error (Errorf_wrap "parse icmp v4 layer"
           (Errorf_icmp_type_not_support (Type_ (ICMPv4.TypeCode m)))).
Proof.
  intros Hq He. apply caseOf_not_In in Hq, He. unfold parseICMPv4Layer. cbv zeta.
  fold queryTypes. fold errorTypes. now rewrite Hq, He.
Qed.

(** On an error type the result is decided by the decoded layers alone. *)
Lemma parseICMPv4Layer_error (m : ICMPv4.t) :
  In (Type_ (ICMPv4.TypeCode m)) errorTypes ->
  parseICMPv4Layer NewPacket m =
  match NewPacket (ICMPv4.Payload m) with
  | [] => Error (Errorf_wrap "parse icmp v4 layer" (errors_New "missing network layer"))
  | [_] => Error (Errorf_wrap "parse icmp v4 layer" (errors_New "missing transport layer"))
  | LayerIPv4 h :: l :: _ =>
      if IPv4.Version h =? 4 then
        Return {| layer := m; embIPv4Layer := Some h; embTransportLayer := Some l;
                  embTransportLayerType := LayerType_of l |}
      else Error (Errorf_wrap "parse icmp v4 layer"
                    (Errorf_ip_version_not_support (IPv4.Version h)))
  | _ :: _ :: _ =>
      Error (Errorf_wrap "parse icmp v4 layer" (errors_New "network layer type not support"))
  end.
Proof.
  intros He.
  assert (Hq : caseOf (Type_ (ICMPv4.TypeCode m)) queryTypes = false).
  { apply caseOf_not_In. intros Hq. exact (query_not_error _ Hq He). }
  apply caseOf_In in He. unfold parseICMPv4Layer. cbv zeta.
  fold queryTypes. fold errorTypes. rewrite Hq, He.
  destruct (NewPacket (ICMPv4.Payload m)) as [| n [| l rest]]; try reflexivity;
    destruct n as [h | | | | |]; cbn; try reflexivity.
  now destruct (IPv4.Version h =? 4).
Qed.

Lemma parseICMPv4Layer_error_inv (m : ICMPv4.t) (i : icmpv4Indicator) :
  In (Type_ (ICMPv4.TypeCode m)) errorTypes ->
  parseICMPv4Layer NewPacket m = Return i ->
  exists h l rest,
    NewPacket (ICMPv4.Payload m) = LayerIPv4 h :: l :: rest /\
    IPv4.Version h = 4 /\
    i = {| layer := m; embIPv4Layer := Some h; embTransportLayer := Some l;
           embTransportLayerType := LayerType_of l |}.
Proof.
  intros He Hp. rewrite (parseICMPv4Layer_error m He) in Hp.
  destruct (NewPacket (ICMPv4.Payload m)) as [| n [| l rest]]; try discriminate;
    destruct n as [h | | | | |]; try discriminate.
  destruct (Z.eqb_spec (IPv4.Version h) 4) as [Hv | Hv]; try discriminate.
  injection Hp as <-. now exists h, l, rest.
Qed.

End ParseFacts.

(** *** The NAT endpoints of an indicator with embedded layers *)

Lemma natSrc_natDst_tcp (m : ICMPv4.t) (h : IPv4.t) (t : TCP.t) :
  In (Type_ (ICMPv4.TypeCode m)) errorTypes ->
  let i := {| layer := m; embIPv4Layer := Some h;
              embTransportLayer := Some (LayerTCP t);
              embTransportLayerType := LayerTypeTCP |} in
  natSrc i = Return (IPPort (IPv4.DstIP h) (uint16 (TCP.DstPort t))) /\
  natDst i = Return (IPPort (IPv4.SrcIP h) (uint16 (TCP.SrcPort t))).
Proof.
  intros He i. unfold natSrc, natDst.
  rewrite (isQuery_error i He). split; reflexivity.
Qed.

Lemma natSrc_natDst_udp (m : ICMPv4.t) (h : IPv4.t) (u : UDP.t) :
  In (Type_ (ICMPv4.TypeCode m)) errorTypes ->
  let i := {| layer := m; embIPv4Layer := Some h;
              embTransportLayer := Some (LayerUDP u);
              embTransportLayerType := LayerTypeUDP |} in
  natSrc i = Return (IPPort (IPv4.DstIP h) (uint16 (UDP.DstPort u))) /\
  natDst i = Return (IPPort (IPv4.SrcIP h) (uint16 (UDP.SrcPort u))).
Proof.
  intros He i. unfold natSrc, natDst.
  rewrite (isQuery_error i He). split; reflexivity.
Qed.

Lemma isEmbQuery_icmpv4 (m e : ICMPv4.t) (oh : option IPv4.t) :
  isEmbQuery {| layer := m; embIPv4Layer := oh;
                embTransportLayer := Some (LayerICMPv4 e);
                embTransportLayerType := LayerTypeICMPv4 |} =
  let t := Type_ (ICMPv4.TypeCode e) in
  if caseOf t queryTypes then Return true
  else if caseOf t errorTypes then Return false
  else Panic (panicError (Errorf_wrap "is emb query" (Errorf_icmp_type_not_support t))).
Proof. reflexivity. Qed.

Lemma natSrc_natDst_icmpv4_query (m e : ICMPv4.t) (h : IPv4.t) :
  In (Type_ (ICMPv4.TypeCode m)) errorTypes ->
  In (Type_ (ICMPv4.TypeCode e)) queryTypes ->
  let i := {| layer := m; embIPv4Layer := Some h;
              embTransportLayer := Some (LayerICMPv4 e);
              embTransportLayerType := LayerTypeICMPv4 |} in
  isEmbQuery i = Return true /\
  natSrc i = Return (IPId (IPv4.DstIP h) (uint16 (ICMPv4.Id e))) /\
  natDst i = Return (IPId (IPv4.SrcIP h) (uint16 (ICMPv4.Id e))).
Proof.
  intros He Hq i.
  assert (Hemb : isEmbQuery i = Return true).
  { unfold i. rewrite isEmbQuery_icmpv4. cbv zeta.
    apply caseOf_In in Hq. now rewrite Hq. }
  split; [exact Hemb |].
  unfold natSrc, natDst. rewrite (isQuery_error i He). cbn [bind].
  cbn [embTransportLayerType i]. rewrite Hemb. split; reflexivity.
Qed.

Lemma natSrc_natDst_icmpv4_error (m e : ICMPv4.t) (h : IPv4.t) :
  In (Type_ (ICMPv4.TypeCode m)) errorTypes ->
  In (Type_ (ICMPv4.TypeCode e)) errorTypes ->
  let i := {| layer := m; embIPv4Layer := Some h;
              embTransportLayer := Some (LayerICMPv4 e);
              embTransportLayerType := LayerTypeICMPv4 |} in
  isEmbQuery i = Return false /\
  natSrc i = Return (IP (IPv4.DstIP h)) /\
  natDst i = Return (IP (IPv4.SrcIP h)).
Proof.
  intros He Hee i.
  assert (Hemb : isEmbQuery i = Return false).
  { unfold i. rewrite isEmbQuery_icmpv4. cbv zeta.
    assert (Hq : caseOf (Type_ (ICMPv4.TypeCode e)) queryTypes = false).
    { apply caseOf_not_In. intros Hq. exact (query_not_error _ Hq Hee). }
    apply caseOf_In in Hee. now rewrite Hq, Hee. }
  split; [exact Hemb |].
  unfold natSrc, natDst. rewrite (isQuery_error i He). cbn [bind].
  cbn [embTransportLayerType i]. rewrite Hemb. split; reflexivity.
Qed.

(** *** Facts on single accessors *)

Arguments caseOf : simpl never.

Lemma embId_wrong_type (i : icmpv4Indicator) :
  embTransportLayerType i <> LayerTypeICMPv4 ->
  embId i = Panic (panicError (Errorf_wrap "emb id"
              (Errorf_layer_type_not_support (embTransportLayerType i)))).
Proof.
  intros H. unfold embId. destruct (embTransportLayerType i); try reflexivity.
  now contradiction H.
Qed.

Lemma embSrcPort_wrong_type (i : icmpv4Indicator) :
  embTransportLayerType i <> LayerTypeTCP ->
  embTransportLayerType i <> LayerTypeUDP ->
  embSrcPort i = Panic (panicError (Errorf_wrap "emb src port"
                   (Errorf_layer_type_not_support (embTransportLayerType i)))).
Proof.
  intros Ht Hu. unfold embSrcPort. destruct (embTransportLayerType i); try reflexivity.
  - now contradiction Ht.
  - now contradiction Hu.
Qed.

Lemma embDstPort_wrong_type (i : icmpv4Indicator) :
  embTransportLayerType i <> LayerTypeTCP ->
  embTransportLayerType i <> LayerTypeUDP ->
  embDstPort i = Panic (panicError (Errorf_wrap "emb dst port"
                   (Errorf_layer_type_not_support (embTransportLayerType i)))).
Proof.
  intros Ht Hu. unfold embDstPort. destruct (embTransportLayerType i); try reflexivity.
  - now contradiction Ht.
  - now contradiction Hu.
Qed.

Lemma isEmbQuery_wrong_type (i : icmpv4Indicator) :
  embTransportLayerType i <> LayerTypeICMPv4 ->
  isEmbQuery i = Panic (panicRuntime nilPointerDereference).
Proof.
  intros H. unfold isEmbQuery, embICMPv4Layer.
  now rewrite (LayerType_eqb_neq _ _ H).
Qed.

(** *** The claims *)

(** C1. For every indicator that [parseICMPv4Layer] returns for an ICMPv4
    error message and whose embedded transport is TCP or UDP, [natSrc] is
    the [IPPort] of the embedded destination address and destination port,
    and [natDst] the [IPPort] of the embedded source address and source
    port, the addresses being those of the embedded IPv4 header and the
    ports those the accessors [embDstPort] and [embSrcPort] return. *)
Theorem natSrc_natDst_embedded_tcp_udp
    (NewPacket : list byte -> list Layer) (m : ICMPv4.t) (i : icmpv4Indicator) :
  parseICMPv4Layer NewPacket m = Return i ->
  In (Type_ (ICMPv4.TypeCode m)) errorTypes ->
  embTransportLayerType i = LayerTypeTCP \/ embTransportLayerType i = LayerTypeUDP ->
  exists h dstPort srcPort,
    embIPv4Layer i = Some h /\
    embDstIP i = Return (IPv4.DstIP h) /\
    embSrcIP i = Return (IPv4.SrcIP h) /\
    embDstPort i = Return dstPort /\
    embSrcPort i = Return srcPort /\
    natSrc i = Return (IPPort (IPv4.DstIP h) dstPort) /\
    natDst i = Return (IPPort (IPv4.SrcIP h) srcPort).
Proof.
  intros Hp He Hty.
  destruct (parseICMPv4Layer_error_inv _ _ _ He Hp) as (h & l & rest & _ & _ & ->).
  cbn [embTransportLayerType] in Hty.
  destruct l as [? | ? | t | u | ? | ?]; cbn in Hty;
    try (destruct Hty; discriminate).
  - destruct (natSrc_natDst_tcp m h t He) as [Hs Hd].
    exists h, (uint16 (TCP.DstPort t)), (uint16 (TCP.SrcPort t)).
    repeat split; try reflexivity; assumption.
  - destruct (natSrc_natDst_udp m h u He) as [Hs Hd].
    exists h, (uint16 (UDP.DstPort u)), (uint16 (UDP.SrcPort u)).
    repeat split; try reflexivity; assumption.
Qed.

(** The example of the specification: a time-exceeded message around a UDP
    datagram from 10.0.0.5:5000 to 8.8.8.8:53. *)
Lemma natSrc_natDst_time_exceeded_udp :
  exists i,
    parseICMPv4Layer
      (decoded [LayerIPv4 (ipv4Header 4 IPProtocolUDP ip_10_0_0_5 ip_8_8_8_8);
                LayerUDP (createTransportLayerUDP 5000 53)])
      (icmpv4Message ICMPv4TypeTimeExceeded 0 []) = Return i /\
    natSrc i = Return (IPPort ip_8_8_8_8 53) /\
    natDst i = Return (IPPort ip_10_0_0_5 5000).
Proof.
  eexists. split; [reflexivity |].
  destruct (natSrc_natDst_embedded_tcp_udp
              (decoded [LayerIPv4 (ipv4Header 4 IPProtocolUDP ip_10_0_0_5 ip_8_8_8_8);
                        LayerUDP (createTransportLayerUDP 5000 53)])
              (icmpv4Message ICMPv4TypeTimeExceeded 0 []) _ eq_refl)
    as (h & dstPort & srcPort & Hh & _ & _ & Hdp & Hsp & Hs & Hd).
  - in_cases.
  - right. reflexivity.
  - injection Hh as <-. injection Hdp as <-. injection Hsp as <-.
    split; assumption.
Defined.


(** C2. For every indicator that [parseICMPv4Layer] returns for an ICMPv4
    error message and whose embedded transport is itself ICMPv4: when the
    embedded ICMPv4 type is a query type, [natSrc] is the [IPId] of the
    embedded destination address and the embedded identifier; when it is an
    error type, [natSrc] is the [IP] of the embedded destination address;
    [natDst] is the same with the embedded source address. *)
Theorem natSrc_natDst_embedded_icmpv4
    (NewPacket : list byte -> list Layer) (m : ICMPv4.t) (i : icmpv4Indicator) :
  parseICMPv4Layer NewPacket m = Return i ->
  In (Type_ (ICMPv4.TypeCode m)) errorTypes ->
  embTransportLayerType i = LayerTypeICMPv4 ->
  exists h e,
    embIPv4Layer i = Some h /\
    embTransportLayer i = Some (LayerICMPv4 e) /\
    embDstIP i = Return (IPv4.DstIP h) /\
    embSrcIP i = Return (IPv4.SrcIP h) /\
    embId i = Return (uint16 (ICMPv4.Id e)) /\
    (In (Type_ (ICMPv4.TypeCode e)) queryTypes ->
       isEmbQuery i = Return true /\
       natSrc i = Return (IPId (IPv4.DstIP h) (uint16 (ICMPv4.Id e))) /\
       natDst i = Return (IPId (IPv4.SrcIP h) (uint16 (ICMPv4.Id e)))) /\
    (In (Type_ (ICMPv4.TypeCode e)) errorTypes ->
       isEmbQuery i = Return false /\
       natSrc i = Return (IP (IPv4.DstIP h)) /\
       natDst i = Return (IP (IPv4.SrcIP h))).
Proof.
  intros Hp He Hty.
  destruct (parseICMPv4Layer_error_inv _ _ _ He Hp) as (h & l & rest & _ & _ & ->).
  cbn [embTransportLayerType] in Hty.
  destruct l as [? | ? | ? | ? | e | ?]; try discriminate Hty.
  exists h, e. repeat split; try reflexivity.
  - now apply natSrc_natDst_icmpv4_query.
  - now apply (natSrc_natDst_icmpv4_query m e h He).
  - now apply (natSrc_natDst_icmpv4_query m e h He).
  - now apply natSrc_natDst_icmpv4_error.
  - now apply (natSrc_natDst_icmpv4_error m e h He).
  - now apply (natSrc_natDst_icmpv4_error m e h He).
Qed.

(** A destination-unreachable message around an echo request with
    identifier 77 from 10.0.0.5 to 8.8.8.8, and one around a time-exceeded
    message between the same addresses. *)
Lemma natSrc_natDst_unreachable_icmpv4 :
  (exists i,
     parseICMPv4Layer
       (decoded [LayerIPv4 (ipv4Header 4 1 ip_10_0_0_5 ip_8_8_8_8);
                 LayerICMPv4 (icmpv4Message ICMPv4TypeEchoRequest 77 [])])
       (icmpv4Message ICMPv4TypeDestinationUnreachable 0 []) = Return i /\
     natSrc i = Return (IPId ip_8_8_8_8 77) /\
     natDst i = Return (IPId ip_10_0_0_5 77)) /\
  (exists i,
     parseICMPv4Layer
       (decoded [LayerIPv4 (ipv4Header 4 1 ip_10_0_0_5 ip_8_8_8_8);
                 LayerICMPv4 (icmpv4Message ICMPv4TypeTimeExceeded 0 [])])
       (icmpv4Message ICMPv4TypeDestinationUnreachable 0 []) = Return i /\
     natSrc i = Return (IP ip_8_8_8_8) /\
     natDst i = Return (IP ip_10_0_0_5)).
Proof.
  split.
  - eexists. split; [reflexivity |].
    destruct (natSrc_natDst_embedded_icmpv4
                (decoded [LayerIPv4 (ipv4Header 4 1 ip_10_0_0_5 ip_8_8_8_8);
                          LayerICMPv4 (icmpv4Message ICMPv4TypeEchoRequest 77 [])])
                (icmpv4Message ICMPv4TypeDestinationUnreachable 0 []) _ eq_refl)
      as (h & e & Hh & Hl & _ & _ & _ & Hq & _).
    + in_cases.
    + reflexivity.
    + injection Hh as <-. injection Hl as <-.
      destruct Hq as (_ & Hs & Hd); [in_cases |].
      split; assumption.
  - eexists. split; [reflexivity |].
    destruct (natSrc_natDst_embedded_icmpv4
                (decoded [LayerIPv4 (ipv4Header 4 1 ip_10_0_0_5 ip_8_8_8_8);
                          LayerICMPv4 (icmpv4Message ICMPv4TypeTimeExceeded 0 [])])
                (icmpv4Message ICMPv4TypeDestinationUnreachable 0 []) _ eq_refl)
      as (h & e & Hh & Hl & _ & _ & _ & _ & Herr).
    + in_cases.
    + reflexivity.
    + injection Hh as <-. injection Hl as <-.
      destruct Herr as (_ & Hs & Hd); [in_cases |].
      split; assumption.
Defined.

(** C3, as the code has it.  For every indicator whose outer ICMPv4 message
    is of a query type, [natSrc] and [natDst] return no endpoint: each
    panics, and the panic carries the error "icmpv4 query not support",
    wrapped as "src: ..." and "dst: ...". *)
Theorem natSrc_natDst_query_panic (i : icmpv4Indicator) :
  In (Type_ (ICMPv4.TypeCode (layer i))) queryTypes ->
  natSrc i = Panic (panicError (Errorf_wrap "src" (errors_New "icmpv4 query not support"))) /\
  natDst i = Panic (panicError (Errorf_wrap "dst" (errors_New "icmpv4 query not support"))).
Proof.
  intros Hq. unfold natSrc, natDst.
  rewrite (isQuery_query i Hq). split; reflexivity.
Qed.

(** The indicator of an echo request. *)
Lemma natSrc_natDst_echo_request_panic :
  natSrc echoRequestIndicator =
    Panic (panicError (Errorf_wrap "src" (errors_New "icmpv4 query not support"))) /\
  natDst echoRequestIndicator =
    Panic (panicError (Errorf_wrap "dst" (errors_New "icmpv4 query not support"))).
Proof.
  apply (natSrc_natDst_query_panic echoRequestIndicator).
  in_cases.
Defined.

(** C3 as stated fails: on the indicator of an echo request the two
    functions hand no error back to the caller, they panic. *)
Lemma natSrc_natDst_query_no_returned_error :
  parseICMPv4Layer (decoded []) (icmpv4Message ICMPv4TypeEchoRequest 7 []) =
    Return echoRequestIndicator /\
  ~ (exists err, natSrc echoRequestIndicator = Error err) /\
  ~ (exists err, natDst echoRequestIndicator = Error err) /\
  (exists v, natSrc echoRequestIndicator = Panic v) /\
  (exists v, natDst echoRequestIndicator = Panic v).
Proof.
  split; [reflexivity |].
  repeat split.
  - intros [err H]. discriminate H.
  - intros [err H]. discriminate H.
  - eexists. reflexivity.
  - eexists. reflexivity.
Qed.


(** C4. The classification of an ICMPv4 message is a function of its type
    alone.  [isQuery] answers true exactly on the ten query types and false
    exactly on the five error types, and two indicators with the same
    type+code get the same answer whatever their other fields; on every
    other type it yields the error "type <t> not support" (as a panic), no
    default.  [parseICMPv4Layer] draws the same line: a query type gives an
    indicator without embedded layers, and every type outside both sets
    gives the error "type <t> not support". *)
Theorem classification_by_type
    (NewPacket : list byte -> list Layer) (i j : icmpv4Indicator) (m : ICMPv4.t) :
  (isQuery i = Return true <-> In (Type_ (ICMPv4.TypeCode (layer i))) queryTypes) /\
  (isQuery i = Return false <-> In (Type_ (ICMPv4.TypeCode (layer i))) errorTypes) /\
  (isQuery i = Panic (panicError (Errorf_wrap "is query"
       (Errorf_icmp_type_not_support (Type_ (ICMPv4.TypeCode (layer i))))))
   <-> ~ In (Type_ (ICMPv4.TypeCode (layer i))) (queryTypes ++ errorTypes)) /\
  (ICMPv4.TypeCode (layer i) = ICMPv4.TypeCode (layer j) -> isQuery i = isQuery j) /\
  (In (Type_ (ICMPv4.TypeCode m)) queryTypes ->
     parseICMPv4Layer NewPacket m =
     Return {| layer := m; embIPv4Layer := None; embTransportLayer := None;
               embTransportLayerType := LayerTypeZero |}) /\
  (parseICMPv4Layer NewPacket m =
     Error (Errorf_wrap "parse icmp v4 layer"
              (Errorf_icmp_type_not_support (Type_ (ICMPv4.TypeCode m))))
   <-> ~ In (Type_ (ICMPv4.TypeCode m)) (queryTypes ++ errorTypes)) /\
  queryTypes = [0; 8; 9; 10; 13; 14; 15; 16; 17; 18] /\
  errorTypes = [3; 4; 5; 11; 12].
Proof.
  assert (Hcases : forall t : Z,
             (In t queryTypes /\ ~ In t errorTypes) \/
             (~ In t queryTypes /\ In t errorTypes) \/
             (~ In t queryTypes /\ ~ In t errorTypes)).
  { intros t. destruct (caseOf t queryTypes) eqn:Eq.
    - apply caseOf_In in Eq. left. split; [assumption | now apply query_not_error].
    - apply caseOf_not_In in Eq. destruct (caseOf t errorTypes) eqn:Ee.
      + apply caseOf_In in Ee. right. left. now split.
      + apply caseOf_not_In in Ee. right. right. now split. }
  repeat split.
  - intros H. destruct (Hcases (Type_ (ICMPv4.TypeCode (layer i)))) as [[Hq _] | [[_ He] | [Hq He]]].
    + assumption.
    + rewrite (isQuery_error i He) in H. discriminate H.
    + rewrite (isQuery_other i Hq He) in H. discriminate H.
  - apply isQuery_query.
  - intros H. destruct (Hcases (Type_ (ICMPv4.TypeCode (layer i)))) as [[Hq _] | [[_ He] | [Hq He]]].
    + rewrite (isQuery_query i Hq) in H. discriminate H.
    + assumption.
    + rewrite (isQuery_other i Hq He) in H. discriminate H.
  - apply isQuery_error.
  - intros H Hin. apply in_app_or in Hin. destruct Hin as [Hq | He].
    + rewrite (isQuery_query i Hq) in H. discriminate H.
    + rewrite (isQuery_error i He) in H. discriminate H.
  - intros H. apply isQuery_other; intros Hin; apply H; apply in_or_app; tauto.
  - intros H. rewrite !isQuery_eq. cbv zeta. now rewrite H.
  - apply parseICMPv4Layer_query.
  - intros H Hin. apply in_app_or in Hin. destruct Hin as [Hq | He].
    + rewrite (parseICMPv4Layer_query NewPacket m Hq) in H. discriminate H.
    + rewrite (parseICMPv4Layer_error NewPacket m He) in H.
      destruct (NewPacket (ICMPv4.Payload m)) as [| n [| l rest]]; try discriminate H;
        destruct n as [h | | | | |]; try discriminate H.
      destruct (IPv4.Version h =? 4); discriminate H.
  - intros H. apply parseICMPv4Layer_other; intros Hin; apply H; apply in_or_app; tauto.
Qed.

(** An echo request, a time-exceeded message, and the unassigned type 42. *)
Lemma classification_by_type_examples :
  isQuery echoRequestIndicator = Return true /\
  isQuery (errorIndicator ICMPv4TypeTimeExceeded
             (ipv4Header 4 IPProtocolUDP ip_10_0_0_5 ip_8_8_8_8)
             (LayerUDP (createTransportLayerUDP 5000 53))) = Return false /\
  isQuery {| layer := icmpv4Message 42 0 []; embIPv4Layer := None;
             embTransportLayer := None; embTransportLayerType := LayerTypeZero |} =
    Panic (panicError (Errorf_wrap "is query" (Errorf_icmp_type_not_support 42))) /\
  parseICMPv4Layer (decoded []) (icmpv4Message 42 0 []) =
    Error (Errorf_wrap "parse icmp v4 layer" (Errorf_icmp_type_not_support 42)).
Proof.
  split; [| split; [| split]].
  - destruct (classification_by_type (decoded []) echoRequestIndicator
                echoRequestIndicator (icmpv4Message 42 0 [])) as ([_ H] & _).
    apply H. in_cases.
  - destruct (classification_by_type (decoded [])
                (errorIndicator ICMPv4TypeTimeExceeded
                   (ipv4Header 4 IPProtocolUDP ip_10_0_0_5 ip_8_8_8_8)
                   (LayerUDP (createTransportLayerUDP 5000 53)))
                echoRequestIndicator (icmpv4Message 42 0 [])) as (_ & [_ H] & _).
    apply H. in_cases.
  - destruct (classification_by_type (decoded [])
                {| layer := icmpv4Message 42 0 []; embIPv4Layer := None;
                   embTransportLayer := None; embTransportLayerType := LayerTypeZero |}
                echoRequestIndicator (icmpv4Message 42 0 [])) as (_ & _ & [_ H] & _).
    apply H. in_cases.
  - destruct (classification_by_type (decoded []) echoRequestIndicator
                echoRequestIndicator (icmpv4Message 42 0 []))
      as (_ & _ & _ & _ & _ & [_ H] & _).
    apply H. in_cases.
Defined.

(** C5.  [createNetworkLayerIPv4] fails with "invalid ipv4 address" as soon
    as the source or the destination address has no 4-byte form.
    [createNetworkLayerIPv6] never returns a layer: it fails with "invalid
    ipv6 address" when one of the addresses has a 4-byte form, and with
    "ipv6 not support" otherwise. *)
Theorem createNetworkLayer_address_checks
    (TCP_SetNetworkLayerForChecksum : TCP.t -> IPv4.t -> outcome TCP.t)
    (UDP_SetNetworkLayerForChecksum : UDP.t -> IPv4.t -> outcome UDP.t)
    (srcIP dstIP : net.IP) (id ttl : Z) (transportLayer : option Layer) :
  (net.To4 srcIP = None \/ net.To4 dstIP = None ->
     createNetworkLayerIPv4 TCP_SetNetworkLayerForChecksum UDP_SetNetworkLayerForChecksum
       srcIP dstIP id ttl transportLayer =
     Error (Errorf_wrap "create network layer" (Errorf_invalid_ipv4_address srcIP))) /\
  (net.To4 srcIP <> None \/ net.To4 dstIP <> None ->
     createNetworkLayerIPv6 srcIP dstIP transportLayer =
     Error (Errorf_wrap "create network layer" (Errorf_invalid_ipv6_address srcIP))) /\
  (net.To4 srcIP = None /\ net.To4 dstIP = None ->
     createNetworkLayerIPv6 srcIP dstIP transportLayer =
     Error (Errorf_wrap "create network layer" (errors_New "ipv6 not support"))) /\
  (exists err, createNetworkLayerIPv6 srcIP dstIP transportLayer = Error err).
Proof.
  unfold createNetworkLayerIPv4, createNetworkLayerIPv6.
  destruct (net.To4 srcIP) as [s4 |], (net.To4 dstIP) as [d4 |]; cbn [isNil negb orb];
    repeat split; try reflexivity; try (eexists; reflexivity).
  all: intros H; try reflexivity.
  all: try (destruct H as [H | H]; discriminate H).
  all: try (destruct H as [H | H]; now contradiction H).
  all: destruct H as [H1 H2]; discriminate.
Qed.

(** 2001:db8::1 has no 4-byte form; ::ffff:10.0.0.5 has one. *)
Lemma createNetworkLayer_address_checks_examples :
  createNetworkLayerIPv4 (fun l _ => Return l) (fun l _ => Return l)
    ip_2001_db8_1 ip_8_8_8_8 1 64 (Some (LayerUDP (createTransportLayerUDP 5000 53))) =
  Error (Errorf_wrap "create network layer" (Errorf_invalid_ipv4_address ip_2001_db8_1)) /\
  createNetworkLayerIPv6 ip_2001_db8_1 ip_mapped_10_0_0_5
    (Some (LayerUDP (createTransportLayerUDP 5000 53))) =
  Error (Errorf_wrap "create network layer" (Errorf_invalid_ipv6_address ip_2001_db8_1)) /\
  createNetworkLayerIPv6 ip_2001_db8_1 ip_2001_db8_1
    (Some (LayerUDP (createTransportLayerUDP 5000 53))) =
  Error (Errorf_wrap "create network layer" (errors_New "ipv6 not support")).
Proof.
  split; [| split].
  - apply (createNetworkLayer_address_checks (fun l _ => Return l) (fun l _ => Return l)
             ip_2001_db8_1 ip_8_8_8_8 1 64 (Some (LayerUDP (createTransportLayerUDP 5000 53)))).
    left. reflexivity.
  - apply (createNetworkLayer_address_checks (fun l _ => Return l) (fun l _ => Return l)
             ip_2001_db8_1 ip_mapped_10_0_0_5 1 64
             (Some (LayerUDP (createTransportLayerUDP 5000 53)))).
    right. discriminate.
  - apply (createNetworkLayer_address_checks (fun l _ => Return l) (fun l _ => Return l)
             ip_2001_db8_1 ip_2001_db8_1 1 64
             (Some (LayerUDP (createTransportLayerUDP 5000 53)))).
    split; reflexivity.
Defined.


(** C6, on the answers of the decoder to incomplete packets.  [gopacket]
    keeps a layer it could not decode completely and puts a decode-failure
    layer after it.  From a payload without a complete IPv4 header it so
    yields two layers, an IPv4 layer with zero-valued fields and the decode
    failure: both length tests of [parseICMPv4Layer] pass, and the function
    fails with "ip version 0 not support", not with "missing network
    layer".  From a complete header of version 4 and a truncated transport
    header it yields three layers, and the function returns an indicator
    where "missing transport layer" was due.  "missing network layer" is
    returned for an empty list of layers only. *)
Theorem parseICMPv4Layer_incomplete_packet
    (NewPacket : list byte -> list Layer) (m : ICMPv4.t) :
  In (Type_ (ICMPv4.TypeCode m)) errorTypes ->
  (forall h,
     NewPacket (ICMPv4.Payload m) = [LayerIPv4 h; LayerOther "DecodeFailure"] ->
     IPv4.Version h = 0 ->
     parseICMPv4Layer NewPacket m =
     Error (Errorf_wrap "parse icmp v4 layer" (Errorf_ip_version_not_support 0))) /\
  (forall h l,
     NewPacket (ICMPv4.Payload m) = [LayerIPv4 h; l; LayerOther "DecodeFailure"] ->
     IPv4.Version h = 4 ->
     parseICMPv4Layer NewPacket m =
     Return {| layer := m; embIPv4Layer := Some h; embTransportLayer := Some l;
               embTransportLayerType := LayerType_of l |}) /\
  (parseICMPv4Layer NewPacket m =
     Error (Errorf_wrap "parse icmp v4 layer" (errors_New "missing network layer"))
   <-> NewPacket (ICMPv4.Payload m) = []).
Proof.
  intros He. pose proof (parseICMPv4Layer_error NewPacket m He) as Hparse.
  split; [| split].
  - intros h Hdec Hv. rewrite Hparse, Hdec, Hv. reflexivity.
  - intros h l Hdec Hv. rewrite Hparse, Hdec, Hv. reflexivity.
  - rewrite Hparse. split.
    + intros H.
      destruct (NewPacket (ICMPv4.Payload m)) as [| n [| l rest]];
        [reflexivity | |]; destruct n as [h | | | | |]; try discriminate H.
      destruct (IPv4.Version h =? 4); discriminate H.
    + intros ->. reflexivity.
Qed.

(** A destination-unreachable message with an empty payload, and one whose
    payload is an IPv4 header followed by 5 bytes of a TCP header, with the
    layers the decoder yields for each. *)
Lemma parseICMPv4Layer_incomplete_packet_examples :
  parseICMPv4Layer
    (decoded [LayerIPv4 zeroIPv4; LayerOther "DecodeFailure"])
    (icmpv4Message ICMPv4TypeDestinationUnreachable 0 []) =
    Error (Errorf_wrap "parse icmp v4 layer" (Errorf_ip_version_not_support 0)) /\
  parseICMPv4Layer
    (decoded [LayerIPv4 truncatedTCPHeader; LayerTCP zeroTCP; LayerOther "DecodeFailure"])
    (icmpv4Message ICMPv4TypeDestinationUnreachable 0 (firstn 25 truncatedTCPBytes)) =
    Return {| layer := icmpv4Message ICMPv4TypeDestinationUnreachable 0
                         (firstn 25 truncatedTCPBytes);
              embIPv4Layer := Some truncatedTCPHeader;
              embTransportLayer := Some (LayerTCP zeroTCP);
              embTransportLayerType := LayerTypeTCP |}.
Proof.
  split.
  - destruct (parseICMPv4Layer_incomplete_packet
                (decoded [LayerIPv4 zeroIPv4; LayerOther "DecodeFailure"])
                (icmpv4Message ICMPv4TypeDestinationUnreachable 0 []))
      as (H & _); [in_cases |].
    apply (H zeroIPv4); reflexivity.
  - destruct (parseICMPv4Layer_incomplete_packet
                (decoded [LayerIPv4 truncatedTCPHeader; LayerTCP zeroTCP;
                          LayerOther "DecodeFailure"])
                (icmpv4Message ICMPv4TypeDestinationUnreachable 0
                   (firstn 25 truncatedTCPBytes)))
      as (_ & H & _); [in_cases |].
    apply (H truncatedTCPHeader (LayerTCP zeroTCP)); reflexivity.
Defined.

(** C7, on the answer of the decoder to 8 bytes of a TCP header.
    [gopacket] decodes a TCP header from 20 bytes; from fewer it yields a
    TCP layer with zero-valued fields and a decode failure after it.  On
    that answer [parseICMPv4Layer] returns an indicator, and the ports its
    accessors return, and the ports of the two NAT endpoints, are 0: not
    the ports the 8 bytes carry. *)
Theorem parseICMPv4Layer_truncated_tcp
    (NewPacket : list byte -> list Layer) (m : ICMPv4.t) (h : IPv4.t) (t : TCP.t) :
  In (Type_ (ICMPv4.TypeCode m)) errorTypes ->
  NewPacket (ICMPv4.Payload m) = [LayerIPv4 h; LayerTCP t; LayerOther "DecodeFailure"] ->
  IPv4.Version h = 4 ->
  TCP.SrcPort t = 0 ->
  TCP.DstPort t = 0 ->
  exists i,
    parseICMPv4Layer NewPacket m = Return i /\
    embSrcPort i = Return 0 /\
    embDstPort i = Return 0 /\
    natSrc i = Return (IPPort (IPv4.DstIP h) 0) /\
    natDst i = Return (IPPort (IPv4.SrcIP h) 0).
Proof.
  intros He Hdec Hv Hs Hd. eexists. split.
  - rewrite (parseICMPv4Layer_error NewPacket m He), Hdec, Hv. reflexivity.
  - destruct (natSrc_natDst_tcp m h t He) as [Hsrc Hdst]. cbv zeta in Hsrc, Hdst.
    cbn [LayerType_of]. rewrite Hsrc, Hdst. cbn. rewrite Hs, Hd.
    repeat split; reflexivity.
Qed.

(** A destination-unreachable message whose payload is an IPv4 header and
    the first 8 bytes of a TCP header with the ports 1234 and 80. *)
Lemma parseICMPv4Layer_truncated_tcp_example :
  exists i,
    parseICMPv4Layer
      (decoded [LayerIPv4 truncatedTCPHeader; LayerTCP zeroTCP; LayerOther "DecodeFailure"])
      (icmpv4Message ICMPv4TypeDestinationUnreachable 0 truncatedTCPBytes) = Return i /\
    embSrcPort i = Return 0 /\
    embDstPort i = Return 0 /\
    natSrc i = Return (IPPort ip_8_8_8_8 0) /\
    natDst i = Return (IPPort ip_10_0_0_5 0).
Proof.
  apply (parseICMPv4Layer_truncated_tcp
           (decoded [LayerIPv4 truncatedTCPHeader; LayerTCP zeroTCP;
                     LayerOther "DecodeFailure"])
           (icmpv4Message ICMPv4TypeDestinationUnreachable 0 truncatedTCPBytes)
           truncatedTCPHeader zeroTCP); try reflexivity.
  in_cases.
Defined.

(** C9, as the code has it.  Called on an indicator whose embedded
    transport type is not the one they serve, the accessors return no
    value, zero or other: [embSrcPort] and [embDstPort] (type neither TCP
    nor UDP) and [embId] (type not ICMPv4) panic with the error "type <T>
    not support", [T] the recorded type, and [isEmbQuery] (type not ICMPv4)
    panics as well. *)
Theorem embedded_accessors_wrong_type (i : icmpv4Indicator) :
  (embTransportLayerType i <> LayerTypeTCP ->
   embTransportLayerType i <> LayerTypeUDP ->
     embSrcPort i = Panic (panicError (Errorf_wrap "emb src port"
                      (Errorf_layer_type_not_support (embTransportLayerType i)))) /\
     embDstPort i = Panic (panicError (Errorf_wrap "emb dst port"
                      (Errorf_layer_type_not_support (embTransportLayerType i))))) /\
  (embTransportLayerType i <> LayerTypeICMPv4 ->
     embId i = Panic (panicError (Errorf_wrap "emb id"
                 (Errorf_layer_type_not_support (embTransportLayerType i)))) /\
     exists v, isEmbQuery i = Panic v).
Proof.
  split.
  - intros Ht Hu. split.
    + now apply embSrcPort_wrong_type.
    + now apply embDstPort_wrong_type.
  - intros Hi. split.
    + now apply embId_wrong_type.
    + exists (panicRuntime nilPointerDereference). now apply isEmbQuery_wrong_type.
Qed.

(** The ports of an embedded echo request, and the identifier of an
    embedded UDP datagram. *)
Lemma embedded_accessors_wrong_type_examples :
  embSrcPort (errorIndicator ICMPv4TypeTimeExceeded
                (ipv4Header 4 1 ip_10_0_0_5 ip_8_8_8_8)
                (LayerICMPv4 (icmpv4Message ICMPv4TypeEchoRequest 77 []))) =
    Panic (panicError (Errorf_wrap "emb src port"
             (Errorf_layer_type_not_support LayerTypeICMPv4))) /\
  embId (errorIndicator ICMPv4TypeTimeExceeded
           (ipv4Header 4 IPProtocolUDP ip_10_0_0_5 ip_8_8_8_8)
           (LayerUDP (createTransportLayerUDP 5000 53))) =
    Panic (panicError (Errorf_wrap "emb id"
             (Errorf_layer_type_not_support LayerTypeUDP))).
Proof.
  split.
  - destruct (embedded_accessors_wrong_type
                (errorIndicator ICMPv4TypeTimeExceeded
                   (ipv4Header 4 1 ip_10_0_0_5 ip_8_8_8_8)
                   (LayerICMPv4 (icmpv4Message ICMPv4TypeEchoRequest 77 []))))
      as [H _].
    destruct H as [Hs _]; [discriminate | discriminate | exact Hs].
  - destruct (embedded_accessors_wrong_type
                (errorIndicator ICMPv4TypeTimeExceeded
                   (ipv4Header 4 IPProtocolUDP ip_10_0_0_5 ip_8_8_8_8)
                   (LayerUDP (createTransportLayerUDP 5000 53))))
      as [_ H].
    destruct H as [Hid _]; [discriminate | exact Hid].
Defined.

(** C9 as stated fails: on the indicator of a time-exceeded message around
    a UDP datagram, [embId] and [isEmbQuery] hand no error back to the
    caller; the first panics with the error "emb id: type UDP not support",
    the second with the runtime's nil pointer dereference. *)
Lemma embedded_accessors_no_returned_error :
  embId (errorIndicator ICMPv4TypeTimeExceeded
           (ipv4Header 4 IPProtocolUDP ip_10_0_0_5 ip_8_8_8_8)
           (LayerUDP (createTransportLayerUDP 5000 53))) =
    Panic (panicError (Errorf_wrap "emb id"
             (Errorf_layer_type_not_support LayerTypeUDP))) /\
  isEmbQuery (errorIndicator ICMPv4TypeTimeExceeded
                (ipv4Header 4 IPProtocolUDP ip_10_0_0_5 ip_8_8_8_8)
                (LayerUDP (createTransportLayerUDP 5000 53))) =
    Panic (panicRuntime nilPointerDereference) /\
  ~ (exists err,
       embId (errorIndicator ICMPv4TypeTimeExceeded
                (ipv4Header 4 IPProtocolUDP ip_10_0_0_5 ip_8_8_8_8)
                (LayerUDP (createTransportLayerUDP 5000 53))) = Error err) /\
  ~ (exists err,
       isEmbQuery (errorIndicator ICMPv4TypeTimeExceeded
                     (ipv4Header 4 IPProtocolUDP ip_10_0_0_5 ip_8_8_8_8)
                     (LayerUDP (createTransportLayerUDP 5000 53))) = Error err).
Proof.
  split; [reflexivity |]. split; [reflexivity |].
  split; intros [err H]; discriminate H.
Qed.

(** C10.  Whenever [natSrc] and [natDst] both return on an indicator, the
    two endpoints have the same shape, the address of the first is the
    destination address of the embedded IPv4 header and the address of the
    second its source address; two [IPId] endpoints carry the same
    identifier, the embedded one. *)
Theorem natSrc_natDst_mirror (i : icmpv4Indicator) (a b : IPEndpoint) :
  natSrc i = Return a ->
  natDst i = Return b ->
  exists h,
    embIPv4Layer i = Some h /\
    ((exists dstPort srcPort,
        a = IPPort (IPv4.DstIP h) dstPort /\ b = IPPort (IPv4.SrcIP h) srcPort /\
        embDstPort i = Return dstPort /\ embSrcPort i = Return srcPort) \/
     (exists id,
        a = IPId (IPv4.DstIP h) id /\ b = IPId (IPv4.SrcIP h) id /\
        embId i = Return id) \/
     (a = IP (IPv4.DstIP h) /\ b = IP (IPv4.SrcIP h))).
Proof.
  intros Hs Hd. destruct i as [m oh ol ty].
  unfold natSrc, natDst in Hs, Hd.
  destruct (isQuery {| layer := m; embIPv4Layer := oh; embTransportLayer := ol;
                       embTransportLayerType := ty |}) as [[|] | |];
    cbn [bind] in Hs, Hd; try discriminate Hs.
  cbn [embTransportLayerType] in Hs, Hd.
  destruct oh as [h |].
  2: { destruct ty; cbn in Hs; try discriminate Hs.
       destruct (isEmbQuery _) as [[|] | |]; cbn in Hs; discriminate Hs. }
  exists h. split; [reflexivity |].
  destruct ty; try discriminate Hs.
  - (* TCP *)
    destruct ol as [[? | ? | t | ? | ? | ?] |]; try discriminate Hs.
    cbn in Hs, Hd. injection Hs as <-. injection Hd as <-.
    left. eexists. eexists. repeat split; reflexivity.
  - (* UDP *)
    destruct ol as [[? | ? | ? | u | ? | ?] |]; try discriminate Hs.
    cbn in Hs, Hd. injection Hs as <-. injection Hd as <-.
    left. eexists. eexists. repeat split; reflexivity.
  - (* ICMPv4 *)
    destruct ol as [[? | ? | ? | ? | e | ?] |]; try discriminate Hs.
    rewrite isEmbQuery_icmpv4 in Hs, Hd. cbv zeta in Hs, Hd.
    destruct (caseOf (Type_ (ICMPv4.TypeCode e)) queryTypes).
    + cbn in Hs, Hd. injection Hs as <-. injection Hd as <-.
      right. left. eexists. repeat split; reflexivity.
    + destruct (caseOf (Type_ (ICMPv4.TypeCode e)) errorTypes); try discriminate Hs.
      cbn in Hs, Hd. injection Hs as <-. injection Hd as <-.
      right. right. split; reflexivity.
Qed.

(** A destination-unreachable message around a TCP segment from
    10.0.0.5:1234 to 8.8.8.8:80. *)
Lemma natSrc_natDst_mirror_example :
  natSrc unreachableTCPIndicator = Return (IPPort ip_8_8_8_8 80) /\
  natDst unreachableTCPIndicator = Return (IPPort ip_10_0_0_5 1234) /\
  exists h,
    embIPv4Layer unreachableTCPIndicator = Some h /\
    IPv4.DstIP h = ip_8_8_8_8 /\ IPv4.SrcIP h = ip_10_0_0_5.
Proof.
  split; [reflexivity |]. split; [reflexivity |].
  destruct (natSrc_natDst_mirror unreachableTCPIndicator
              (IPPort ip_8_8_8_8 80) (IPPort ip_10_0_0_5 1234) eq_refl eq_refl)
    as (h & Hh & Hshape).
  exists h. split; [exact Hh |].
  destruct Hshape as [(dstPort & srcPort & Ha & Hb & _) | [(id & Ha & _) | (Ha & _)]];
    try discriminate Ha.
  injection Ha as Ha _. injection Hb as Hb _.
  split; symmetry; assumption.
Defined.


(** *** Further properties of the code *)

Lemma uint16_small (z : Z) : 0 <= z < 65536 -> uint16 z = z.
Proof. intros H. unfold uint16. now apply Z.mod_small. Qed.

(** X1.  When the decoder yields, for the payload of an error message, an
    IPv4 header of version 4 followed by a TCP layer, [parseICMPv4Layer]
    succeeds and the accessors of the indicator return the addresses of
    that header and the ports of that TCP layer, whatever else the TCP
    layer holds. *)
Theorem parseICMPv4Layer_embedded_tcp_ports
    (NewPacket : list byte -> list Layer) (m : ICMPv4.t)
    (h : IPv4.t) (t : TCP.t) (rest : list Layer) :
  In (Type_ (ICMPv4.TypeCode m)) errorTypes ->
  NewPacket (ICMPv4.Payload m) = LayerIPv4 h :: LayerTCP t :: rest ->
  IPv4.Version h = 4 ->
  exists i,
    parseICMPv4Layer NewPacket m = Return i /\
    embSrcIP i = Return (IPv4.SrcIP h) /\
    embDstIP i = Return (IPv4.DstIP h) /\
    embSrcPort i = Return (uint16 (TCP.SrcPort t)) /\
    embDstPort i = Return (uint16 (TCP.DstPort t)) /\
    (0 <= TCP.SrcPort t < 65536 -> embSrcPort i = Return (TCP.SrcPort t)) /\
    (0 <= TCP.DstPort t < 65536 -> embDstPort i = Return (TCP.DstPort t)).
Proof.
  intros He Hdec Hv. eexists. split.
  - rewrite (parseICMPv4Layer_error NewPacket m He), Hdec.
    apply Z.eqb_eq in Hv. rewrite Hv. reflexivity.
  - repeat split; try reflexivity; intros Hr; cbn; now rewrite (uint16_small _ Hr).
Qed.

(** A destination-unreachable message around a TCP SYN from port 1234 to
    port 80. *)
Lemma parseICMPv4Layer_embedded_tcp_ports_example :
  exists i,
    parseICMPv4Layer
      (decoded [LayerIPv4 (ipv4Header 4 IPProtocolTCP ip_10_0_0_5 ip_8_8_8_8);
                LayerTCP (createTCPLayerSYN 1234 80 1000)])
      (icmpv4Message ICMPv4TypeDestinationUnreachable 0 []) = Return i /\
    embSrcPort i = Return 1234 /\
    embDstPort i = Return 80.
Proof.
  destruct (parseICMPv4Layer_embedded_tcp_ports
              (decoded [LayerIPv4 (ipv4Header 4 IPProtocolTCP ip_10_0_0_5 ip_8_8_8_8);
                        LayerTCP (createTCPLayerSYN 1234 80 1000)])
              (icmpv4Message ICMPv4TypeDestinationUnreachable 0 [])
              (ipv4Header 4 IPProtocolTCP ip_10_0_0_5 ip_8_8_8_8)
              (createTCPLayerSYN 1234 80 1000) [])
    as (i & Hp & _ & _ & Hs & Hd & _).
  - in_cases.
  - reflexivity.
  - reflexivity.
  - exists i. repeat split; assumption.
Defined.

(** X2.  [isEmbQuery] has no check of the recorded type: on an indicator
    whose embedded transport type is not ICMPv4 it dereferences the nil
    pointer that [embICMPv4Layer] returns, and the panic is the runtime's,
    where [embId] on the same indicator panics with "type <T> not support". *)
Theorem isEmbQuery_nil_dereference (i : icmpv4Indicator) :
  embTransportLayerType i <> LayerTypeICMPv4 ->
  embICMPv4Layer i = Return None /\
  isEmbQuery i = Panic (panicRuntime nilPointerDereference) /\
  embId i = Panic (panicError (Errorf_wrap "emb id"
              (Errorf_layer_type_not_support (embTransportLayerType i)))).
Proof.
  intros H. split; [| split].
  - unfold embICMPv4Layer. now rewrite (LayerType_eqb_neq _ _ H).
  - now apply isEmbQuery_wrong_type.
  - now apply embId_wrong_type.
Qed.

(** An indicator with an embedded TCP segment. *)
Lemma isEmbQuery_nil_dereference_example :
  isEmbQuery unreachableTCPIndicator = Panic (panicRuntime nilPointerDereference).
Proof.
  apply (isEmbQuery_nil_dereference unreachableTCPIndicator). discriminate.
Defined.

(** X3.  On an indicator of an error message whose embedded transport type
    is none of TCP, UDP and ICMPv4, [natSrc] and [natDst] panic with the
    error "type <T> not support", wrapped as "src: ..." and "dst: ...". *)
Theorem natSrc_natDst_unsupported_embedded_type (i : icmpv4Indicator) :
  In (Type_ (ICMPv4.TypeCode (layer i))) errorTypes ->
  embTransportLayerType i <> LayerTypeTCP ->
  embTransportLayerType i <> LayerTypeUDP ->
  embTransportLayerType i <> LayerTypeICMPv4 ->
  natSrc i = Panic (panicError (Errorf_wrap "src"
               (Errorf_layer_type_not_support (embTransportLayerType i)))) /\
  natDst i = Panic (panicError (Errorf_wrap "dst"
               (Errorf_layer_type_not_support (embTransportLayerType i)))).
Proof.
  intros He Ht Hu Hi. unfold natSrc, natDst. rewrite (isQuery_error i He).
  cbn [bind]. destruct (embTransportLayerType i); try contradiction;
    split; reflexivity.
Qed.

(** A time-exceeded message around a GRE packet. *)
Lemma natSrc_natDst_unsupported_embedded_type_example :
  natSrc (errorIndicator ICMPv4TypeTimeExceeded
            (ipv4Header 4 47 ip_10_0_0_5 ip_8_8_8_8) (LayerOther "GRE")) =
    Panic (panicError (Errorf_wrap "src"
             (Errorf_layer_type_not_support (LayerTypeOther "GRE")))) /\
  natDst (errorIndicator ICMPv4TypeTimeExceeded
            (ipv4Header 4 47 ip_10_0_0_5 ip_8_8_8_8) (LayerOther "GRE")) =
    Panic (panicError (Errorf_wrap "dst"
             (Errorf_layer_type_not_support (LayerTypeOther "GRE")))).
Proof.
  apply (natSrc_natDst_unsupported_embedded_type
           (errorIndicator ICMPv4TypeTimeExceeded
              (ipv4Header 4 47 ip_10_0_0_5 ip_8_8_8_8) (LayerOther "GRE"))).
  - in_cases.
  - discriminate.
  - discriminate.
  - discriminate.
Defined.


(** X4.  The indicator [parseICMPv4Layer] returns for a message of a query
    type has no embedded layer, and no accessor of embedded data returns on
    it: [embSrcIP], [embDstIP] and [isEmbQuery] panic with the runtime's
    nil pointer dereference, [embSrcPort], [embDstPort] and [embId] with the
    error "type <T> not support" for the zero layer type. *)
Theorem parseICMPv4Layer_query_indicator
    (NewPacket : list byte -> list Layer) (m : ICMPv4.t) :
  In (Type_ (ICMPv4.TypeCode m)) queryTypes ->
  exists i,
    parseICMPv4Layer NewPacket m = Return i /\
    layer i = m /\ embIPv4Layer i = None /\ embTransportLayer i = None /\
    embTransportLayerType i = LayerTypeZero /\
    embSrcIP i = Panic (panicRuntime nilPointerDereference) /\
    embDstIP i = Panic (panicRuntime nilPointerDereference) /\
    isEmbQuery i = Panic (panicRuntime nilPointerDereference) /\
    embSrcPort i = Panic (panicError (Errorf_wrap "emb src port"
                     (Errorf_layer_type_not_support LayerTypeZero))) /\
    embDstPort i = Panic (panicError (Errorf_wrap "emb dst port"
                     (Errorf_layer_type_not_support LayerTypeZero))) /\
    embId i = Panic (panicError (Errorf_wrap "emb id"
                (Errorf_layer_type_not_support LayerTypeZero))).
Proof.
  intros Hq. eexists. split.
  - now apply parseICMPv4Layer_query.
  - repeat split; reflexivity.
Qed.

(** An echo request. *)
Lemma parseICMPv4Layer_query_indicator_example :
  parseICMPv4Layer (decoded []) (icmpv4Message ICMPv4TypeEchoRequest 7 []) =
    Return echoRequestIndicator /\
  embSrcIP echoRequestIndicator = Panic (panicRuntime nilPointerDereference).
Proof.
  destruct (parseICMPv4Layer_query_indicator (decoded [])
              (icmpv4Message ICMPv4TypeEchoRequest 7 []))
    as (i & Hp & _ & _ & _ & _ & Hs & _).
  - in_cases.
  - injection Hp as <-. split; [reflexivity | exact Hs].
Defined.


(** *** Properties across functions *)

Lemma icmp_type_cases (t : Z) :
  (In t queryTypes /\ ~ In t errorTypes) \/
  (~ In t queryTypes /\ In t errorTypes) \/
  (~ In t queryTypes /\ ~ In t errorTypes).
Proof.
  destruct (caseOf t queryTypes) eqn:Eq.
  - apply caseOf_In in Eq. left. split; [assumption | now apply query_not_error].
  - apply caseOf_not_In in Eq. destruct (caseOf t errorTypes) eqn:Ee.
    + apply caseOf_In in Ee. right. left. now split.
    + apply caseOf_not_In in Ee. right. right. now split.
Qed.

Lemma parseICMPv4Layer_return_inv
    (NewPacket : list byte -> list Layer) (m : ICMPv4.t) (i : icmpv4Indicator) :
  parseICMPv4Layer NewPacket m = Return i ->
  (In (Type_ (ICMPv4.TypeCode m)) queryTypes /\
   i = {| layer := m; embIPv4Layer := None; embTransportLayer := None;
          embTransportLayerType := LayerTypeZero |}) \/
  (In (Type_ (ICMPv4.TypeCode m)) errorTypes /\
   exists h l rest,
     NewPacket (ICMPv4.Payload m) = LayerIPv4 h :: l :: rest /\
     IPv4.Version h = 4 /\
     i = {| layer := m; embIPv4Layer := Some h; embTransportLayer := Some l;
            embTransportLayerType := LayerType_of l |}).
Proof.
  intros H.
  destruct (icmp_type_cases (Type_ (ICMPv4.TypeCode m))) as [[Hq _] | [[_ He] | [Hnq Hne]]].
  - left. split; [assumption |].
    rewrite (parseICMPv4Layer_query NewPacket m Hq) in H. congruence.
  - right. split; [assumption |].
    now apply (parseICMPv4Layer_error_inv NewPacket m i He).
  - rewrite (parseICMPv4Layer_other NewPacket m Hnq Hne) in H. discriminate H.
Qed.

(** X5.  Called with a non-nil message, [parseICMPv4Layer] returns an
    indicator in exactly two cases: the message is of a query type, and the
    indicator has no embedded layer; or the message is of an error type and
    the decoder yields at least two layers, the first an IPv4 layer of
    version 4, and the indicator holds the message, that header, the second
    layer and the second layer's type.  In every other case it returns an
    error.  It panics exactly when the message pointer is nil, with a nil
    pointer dereference: the two index expressions and the type assertion
    are guarded, the pointer is not. *)
Theorem parseICMPv4Layer_returns_iff
    (NewPacket : list byte -> list Layer) (m : ICMPv4.t) (i : icmpv4Indicator)
    (p : option ICMPv4.t) :
  (parseICMPv4Layer_ptr NewPacket (Some m) = Return i <->
     (In (Type_ (ICMPv4.TypeCode m)) queryTypes /\
      i = {| layer := m; embIPv4Layer := None; embTransportLayer := None;
             embTransportLayerType := LayerTypeZero |}) \/
     (In (Type_ (ICMPv4.TypeCode m)) errorTypes /\
      exists h l rest,
        NewPacket (ICMPv4.Payload m) = LayerIPv4 h :: l :: rest /\
        IPv4.Version h = 4 /\
        i = {| layer := m; embIPv4Layer := Some h; embTransportLayer := Some l;
               embTransportLayerType := LayerType_of l |})) /\
  ((exists j, parseICMPv4Layer_ptr NewPacket (Some m) = Return j) \/
   (exists cause,
      parseICMPv4Layer_ptr NewPacket (Some m) =
      Error (Errorf_wrap "parse icmp v4 layer" cause))) /\
  (forall v, parseICMPv4Layer_ptr NewPacket p = Panic v <->
             p = None /\ v = panicRuntime nilPointerDereference).
Proof.
  assert (Hnp : forall m' v, parseICMPv4Layer NewPacket m' <> Panic v).
  { intros m' v H.
    destruct (icmp_type_cases (Type_ (ICMPv4.TypeCode m'))) as [[Hq _] | [[_ He] | [Hnq Hne]]].
    - rewrite (parseICMPv4Layer_query NewPacket m' Hq) in H. discriminate H.
    - rewrite (parseICMPv4Layer_error NewPacket m' He) in H.
      destruct (NewPacket (ICMPv4.Payload m')) as [| n [| l rest]]; try discriminate H;
        destruct n as [h | | | | |]; try discriminate H.
      destruct (IPv4.Version h =? 4); discriminate H.
    - rewrite (parseICMPv4Layer_other NewPacket m' Hnq Hne) in H. discriminate H. }
  split; [| split].
  - change (parseICMPv4Layer_ptr NewPacket (Some m)) with (parseICMPv4Layer NewPacket m).
    split.
    + apply parseICMPv4Layer_return_inv.
    + intros [[Hq ->] | [He (h & l & rest & Hdec & Hv & ->)]].
      * now apply parseICMPv4Layer_query.
      * rewrite (parseICMPv4Layer_error NewPacket m He), Hdec.
        apply Z.eqb_eq in Hv. now rewrite Hv.
  - change (parseICMPv4Layer_ptr NewPacket (Some m)) with (parseICMPv4Layer NewPacket m).
    destruct (parseICMPv4Layer NewPacket m) as [j | err | v] eqn:Hp.
    + left. now exists j.
    + right.
      destruct (icmp_type_cases (Type_ (ICMPv4.TypeCode m))) as [[Hq _] | [[_ He] | [Hnq Hne]]].
      * rewrite (parseICMPv4Layer_query NewPacket m Hq) in Hp. discriminate Hp.
      * rewrite (parseICMPv4Layer_error NewPacket m He) in Hp.
        destruct (NewPacket (ICMPv4.Payload m)) as [| n [| l rest]];
          try (injection Hp as <-; eexists; reflexivity);
          destruct n as [h | | | | |]; try (injection Hp as <-; eexists; reflexivity).
        destruct (IPv4.Version h =? 4); [discriminate Hp |].
        injection Hp as <-. eexists. reflexivity.
      * rewrite (parseICMPv4Layer_other NewPacket m Hnq Hne) in Hp.
        injection Hp as <-. eexists. reflexivity.
    + exfalso. exact (Hnp m v Hp).
  - intros v. destruct p as [m' |].
    + change (parseICMPv4Layer_ptr NewPacket (Some m')) with (parseICMPv4Layer NewPacket m').
      split.
      * intros H. exfalso. exact (Hnp m' v H).
      * intros [H _]. discriminate H.
    + cbn. split.
      * intros H. injection H as <-. now split.
      * intros [_ ->]. reflexivity.
Qed.

(** A time-exceeded message whose payload decodes to a header of version 4
    and a UDP datagram; and the nil pointer. *)
Lemma parseICMPv4Layer_returns_iff_example :
  parseICMPv4Layer_ptr
    (decoded [LayerIPv4 (ipv4Header 4 IPProtocolUDP ip_10_0_0_5 ip_8_8_8_8);
              LayerUDP (createTransportLayerUDP 5000 53)])
    (Some (icmpv4Message ICMPv4TypeTimeExceeded 0 [])) =
  Return (errorIndicator ICMPv4TypeTimeExceeded
            (ipv4Header 4 IPProtocolUDP ip_10_0_0_5 ip_8_8_8_8)
            (LayerUDP (createTransportLayerUDP 5000 53))) /\
  parseICMPv4Layer_ptr
    (decoded [LayerIPv4 (ipv4Header 4 IPProtocolUDP ip_10_0_0_5 ip_8_8_8_8);
              LayerUDP (createTransportLayerUDP 5000 53)])
    None = Panic (panicRuntime nilPointerDereference).
Proof.
  destruct (parseICMPv4Layer_returns_iff
              (decoded [LayerIPv4 (ipv4Header 4 IPProtocolUDP ip_10_0_0_5 ip_8_8_8_8);
                        LayerUDP (createTransportLayerUDP 5000 53)])
              (icmpv4Message ICMPv4TypeTimeExceeded 0 [])
              (errorIndicator ICMPv4TypeTimeExceeded
                 (ipv4Header 4 IPProtocolUDP ip_10_0_0_5 ip_8_8_8_8)
                 (LayerUDP (createTransportLayerUDP 5000 53)))
              None) as ([_ Hret] & _ & Hpanic).
  split.
  - apply Hret. right. split; [in_cases |].
    exists (ipv4Header 4 IPProtocolUDP ip_10_0_0_5 ip_8_8_8_8),
           (LayerUDP (createTransportLayerUDP 5000 53)), [].
    repeat split; reflexivity.
  - apply Hpanic. split; reflexivity.
Defined.

(** X6.  What every indicator returned by [parseICMPv4Layer] satisfies: it
    holds the message parsed; [isQuery] returns on it, and answers true
    exactly when the indicator has no embedded IPv4 header and exactly when
    it has no embedded transport layer; the recorded type is the type of
    the recorded transport layer, so that no type assertion of
    [embTCPLayer], [embUDPLayer] and [embICMPv4Layer] fails, and each
    returns a non-nil pointer exactly for a layer of its type; an embedded
    IPv4 header has version 4. *)
Theorem parsed_indicator_invariant
    (NewPacket : list byte -> list Layer) (m : ICMPv4.t) (i : icmpv4Indicator) :
  parseICMPv4Layer NewPacket m = Return i ->
  layer i = m /\
  (exists b, isQuery i = Return b /\
             (b = true <-> embIPv4Layer i = None) /\
             (b = true <-> embTransportLayer i = None)) /\
  (forall l, embTransportLayer i = Some l -> embTransportLayerType i = LayerType_of l) /\
  (embTransportLayer i = None -> embTransportLayerType i = LayerTypeZero) /\
  (forall h, embIPv4Layer i = Some h -> IPv4.Version h = 4) /\
  (exists pt pu pi,
     embTCPLayer i = Return pt /\ embUDPLayer i = Return pu /\
     embICMPv4Layer i = Return pi /\
     (forall t, pt = Some t <-> embTransportLayer i = Some (LayerTCP t)) /\
     (forall u, pu = Some u <-> embTransportLayer i = Some (LayerUDP u)) /\
     (forall e, pi = Some e <-> embTransportLayer i = Some (LayerICMPv4 e))).
Proof.
  intros Hp. apply parseICMPv4Layer_return_inv in Hp.
  destruct Hp as [[Hq ->] | [He (h & l & rest & _ & Hv & ->)]].
  - split; [reflexivity |]. split.
    { exists true. split; [now apply isQuery_query |]. cbn. tauto. }
    split; [intros l H; discriminate H |].
    split; [reflexivity |].
    split; [intros h H; discriminate H |].
    exists None, None, None. cbn.
    repeat split; try reflexivity; intros H; discriminate H.
  - split; [reflexivity |]. split.
    { exists false. split; [now apply isQuery_error |].
      cbn. split; split; intros H; discriminate H. }
    split; [intros l' H; cbn in H; now injection H as <- |].
    split; [intros H; discriminate H |].
    split; [intros h' H; cbn in H; now injection H as <- |].
    destruct l as [h4 | h6 | t | u | e | name].
    + exists None, None, None. repeat split; try reflexivity; intros H; discriminate H.
    + exists None, None, None. repeat split; try reflexivity; intros H; discriminate H.
    + exists (Some t), None, None. cbn.
      repeat split; try reflexivity; intros H; try discriminate H; congruence.
    + exists None, (Some u), None. cbn.
      repeat split; try reflexivity; intros H; try discriminate H; congruence.
    + exists None, None, (Some e). cbn.
      repeat split; try reflexivity; intros H; try discriminate H; congruence.
    + exists None, None, None. repeat split; try reflexivity; intros H; discriminate H.
Qed.

(** A destination-unreachable message around a TCP SYN. *)
Lemma parsed_indicator_invariant_example :
  embTransportLayerType unreachableTCPIndicator = LayerTypeTCP /\
  IPv4.Version (ipv4Header 4 IPProtocolTCP ip_10_0_0_5 ip_8_8_8_8) = 4.
Proof.
  destruct (parsed_indicator_invariant
              (decoded [LayerIPv4 (ipv4Header 4 IPProtocolTCP ip_10_0_0_5 ip_8_8_8_8);
                        LayerTCP (createTCPLayerSYN 1234 80 1000)])
              (icmpv4Message ICMPv4TypeDestinationUnreachable 0 [])
              unreachableTCPIndicator eq_refl)
    as (_ & _ & Hty & _ & Hv & _).
  split.
  - exact (Hty (LayerTCP (createTCPLayerSYN 1234 80 1000)) eq_refl).
  - exact (Hv (ipv4Header 4 IPProtocolTCP ip_10_0_0_5 ip_8_8_8_8) eq_refl).
Defined.


(** Case analysis of an arbitrary indicator, as far as [natSrc] and
    [natDst] look at it: the class of the outer type, the recorded
    embedded type, the header pointer, the transport layer and, for an
    embedded ICMPv4 message, the class of its type. *)
Ltac indicator_cases i :=
  let m := fresh "m" in
  let oh := fresh "oh" in
  let ol := fresh "ol" in
  let ty := fresh "ty" in
  destruct i as [m oh ol ty];
  unfold natSrc, natDst; rewrite !isQuery_eq; cbv zeta; cbn [layer];
  destruct (caseOf (Type_ (ICMPv4.TypeCode m)) queryTypes);
    [| destruct (caseOf (Type_ (ICMPv4.TypeCode m)) errorTypes)];
  cbn [bind embTransportLayerType];
  [ | destruct ty; destruct oh as [? |]; destruct ol as [[? | ? | ? | ? | ? | ?] |];
      rewrite ?isEmbQuery_icmpv4; cbv zeta;
      repeat match goal with
             | |- context [caseOf (Type_ (ICMPv4.TypeCode ?e)) ?cs] =>
                 destruct (caseOf (Type_ (ICMPv4.TypeCode e)) cs)
             end;
      cbn
    | ].

(** X7.  On every indicator, [natSrc] returns exactly when [natDst]
    returns, and the one ends in a runtime panic (a nil pointer dereference
    or a failed type assertion) exactly when the other ends in the same;
    neither ever returns an error value. *)
Theorem natSrc_natDst_return_together (i : icmpv4Indicator) :
  ((exists a, natSrc i = Return a) <-> (exists b, natDst i = Return b)) /\
  (forall r, natSrc i = Panic (panicRuntime r) <-> natDst i = Panic (panicRuntime r)) /\
  (forall err, natSrc i <> Error err) /\
  (forall err, natDst i <> Error err).
Proof.
  indicator_cases i.
  all: split; [| split; [| split]].
  all: try (split; intros [? H]; discriminate H).
  all: try (split; intros _; eexists; reflexivity).
  all: try (intros r; split; intros H; discriminate H).
  all: try (intros r; split; intros H; exact H).
  all: intros err H; discriminate H.
Qed.

(** An indicator that records TCP and holds a UDP layer: both type
    assertions fail. *)
Lemma natSrc_natDst_return_together_example :
  natSrc {| layer := icmpv4Message ICMPv4TypeTimeExceeded 0 [];
            embIPv4Layer := Some (ipv4Header 4 IPProtocolUDP ip_10_0_0_5 ip_8_8_8_8);
            embTransportLayer := Some (LayerUDP (createTransportLayerUDP 5000 53));
            embTransportLayerType := LayerTypeTCP |} =
    Panic (panicRuntime interfaceConversion) /\
  natDst {| layer := icmpv4Message ICMPv4TypeTimeExceeded 0 [];
            embIPv4Layer := Some (ipv4Header 4 IPProtocolUDP ip_10_0_0_5 ip_8_8_8_8);
            embTransportLayer := Some (LayerUDP (createTransportLayerUDP 5000 53));
            embTransportLayerType := LayerTypeTCP |} =
    Panic (panicRuntime interfaceConversion).
Proof.
  split; [reflexivity |].
  apply (natSrc_natDst_return_together
           {| layer := icmpv4Message ICMPv4TypeTimeExceeded 0 [];
              embIPv4Layer := Some (ipv4Header 4 IPProtocolUDP ip_10_0_0_5 ip_8_8_8_8);
              embTransportLayer := Some (LayerUDP (createTransportLayerUDP 5000 53));
              embTransportLayerType := LayerTypeTCP |}).
  reflexivity.
Defined.


(** X8.  On an indicator returned by [parseICMPv4Layer], [natSrc] and
    [natDst] never end in a runtime panic.  [natSrc] returns, or panics
    with one of three errors: "src: icmpv4 query not support", "src: type
    <T> not support" for the recorded layer type, or "is emb query: type
    <t> not support" for the type of an embedded ICMPv4 message.  It
    returns exactly when the message is of an error type and the embedded
    layer is a TCP layer, a UDP layer, or an ICMPv4 message whose type is a
    query or an error type. *)
Theorem natSrc_natDst_on_parsed
    (NewPacket : list byte -> list Layer) (m : ICMPv4.t) (i : icmpv4Indicator) :
  parseICMPv4Layer NewPacket m = Return i ->
  (forall r, natSrc i <> Panic (panicRuntime r)) /\
  (forall r, natDst i <> Panic (panicRuntime r)) /\
  ((exists a, natSrc i = Return a) \/
   natSrc i = Panic (panicError (Errorf_wrap "src" (errors_New "icmpv4 query not support"))) \/
   natSrc i = Panic (panicError (Errorf_wrap "src"
                (Errorf_layer_type_not_support (embTransportLayerType i)))) \/
   (exists t, natSrc i = Panic (panicError (Errorf_wrap "is emb query"
                           (Errorf_icmp_type_not_support t))))) /\
  ((exists a, natSrc i = Return a) <->
     In (Type_ (ICMPv4.TypeCode m)) errorTypes /\
     ((exists t, embTransportLayer i = Some (LayerTCP t)) \/
      (exists u, embTransportLayer i = Some (LayerUDP u)) \/
      (exists e, embTransportLayer i = Some (LayerICMPv4 e) /\
                 In (Type_ (ICMPv4.TypeCode e)) (queryTypes ++ errorTypes)))).
Proof.
  intros Hp. apply parseICMPv4Layer_return_inv in Hp.
  destruct Hp as [[Hq ->] | [He (h & l & rest & _ & _ & ->)]].
  - (* a query *)
    unfold natSrc, natDst. rewrite isQuery_query by exact Hq. cbn [bind].
    split; [intros r H; discriminate H |].
    split; [intros r H; discriminate H |].
    split; [right; left; reflexivity |].
    split.
    + intros [a H]. discriminate H.
    + intros [He _]. exfalso. exact (query_not_error _ Hq He).
  - (* an error *)
    destruct l as [h4 | h6 | t | u | e | name].
    1, 2, 6:
      unfold natSrc, natDst; rewrite isQuery_error by exact He;
      cbn [bind embTransportLayerType LayerType_of];
      (split; [intros r H; discriminate H |]);
      (split; [intros r H; discriminate H |]);
      (split; [right; right; left; reflexivity |]);
      (split;
       [ intros [a H]; discriminate H
       | intros [_ [[? H] | [[? H] | [? [H _]]]]]; discriminate H ]).
    + destruct (natSrc_natDst_tcp m h t He) as [Hs Hd]. cbv zeta in Hs, Hd.
      cbn [LayerType_of]. rewrite Hs, Hd.
      split; [intros r H; discriminate H |].
      split; [intros r H; discriminate H |].
      split; [left; eexists; reflexivity |].
      split; [intros _ | intros _; eexists; reflexivity].
      split; [assumption | left; eexists; reflexivity].
    + destruct (natSrc_natDst_udp m h u He) as [Hs Hd]. cbv zeta in Hs, Hd.
      cbn [LayerType_of]. rewrite Hs, Hd.
      split; [intros r H; discriminate H |].
      split; [intros r H; discriminate H |].
      split; [left; eexists; reflexivity |].
      split; [intros _ | intros _; eexists; reflexivity].
      split; [assumption | right; left; eexists; reflexivity].
    + cbn [LayerType_of].
      destruct (icmp_type_cases (Type_ (ICMPv4.TypeCode e)))
        as [[Heq _] | [[_ Hee] | [Hnq Hne]]].
      * destruct (natSrc_natDst_icmpv4_query m e h He Heq) as (_ & Hs & Hd).
        cbv zeta in Hs, Hd. rewrite Hs, Hd.
        split; [intros r H; discriminate H |].
        split; [intros r H; discriminate H |].
        split; [left; eexists; reflexivity |].
        split; [intros _ | intros _; eexists; reflexivity].
        split; [assumption |]. right. right. exists e.
        split; [reflexivity | apply in_or_app; now left].
      * destruct (natSrc_natDst_icmpv4_error m e h He Hee) as (_ & Hs & Hd).
        cbv zeta in Hs, Hd. rewrite Hs, Hd.
        split; [intros r H; discriminate H |].
        split; [intros r H; discriminate H |].
        split; [left; eexists; reflexivity |].
        split; [intros _ | intros _; eexists; reflexivity].
        split; [assumption |]. right. right. exists e.
        split; [reflexivity | apply in_or_app; now right].
      * unfold natSrc, natDst. rewrite isQuery_error by exact He.
        cbn [bind embTransportLayerType]. rewrite isEmbQuery_icmpv4. cbv zeta.
        apply caseOf_not_In in Hnq, Hne. rewrite Hnq, Hne. cbn [bind].
        apply caseOf_not_In in Hnq, Hne.
        split; [intros r H; discriminate H |].
        split; [intros r H; discriminate H |].
        split; [right; right; right; eexists; reflexivity |].
        split.
        -- intros [a H]. discriminate H.
        -- intros [_ [[? H] | [[? H] | [e' [H Hin]]]]]; try discriminate H.
           injection H as <-. apply in_app_or in Hin. tauto.
Qed.

(** A time-exceeded message around a GRE packet: parsed, and refused by
    [natSrc] with an error value. *)
Lemma natSrc_natDst_on_parsed_example :
  parseICMPv4Layer
    (decoded [LayerIPv4 (ipv4Header 4 47 ip_10_0_0_5 ip_8_8_8_8); LayerOther "GRE"])
    (icmpv4Message ICMPv4TypeTimeExceeded 0 []) =
    Return (errorIndicator ICMPv4TypeTimeExceeded
              (ipv4Header 4 47 ip_10_0_0_5 ip_8_8_8_8) (LayerOther "GRE")) /\
  ~ (exists a,
       natSrc (errorIndicator ICMPv4TypeTimeExceeded
                 (ipv4Header 4 47 ip_10_0_0_5 ip_8_8_8_8) (LayerOther "GRE")) = Return a).
Proof.
  split; [reflexivity |].
  destruct (natSrc_natDst_on_parsed
              (decoded [LayerIPv4 (ipv4Header 4 47 ip_10_0_0_5 ip_8_8_8_8);
                        LayerOther "GRE"])
              (icmpv4Message ICMPv4TypeTimeExceeded 0 [])
              (errorIndicator ICMPv4TypeTimeExceeded
                 (ipv4Header 4 47 ip_10_0_0_5 ip_8_8_8_8) (LayerOther "GRE"))
              eq_refl) as (_ & _ & _ & [Hret _]).
  intros Ha. destruct (Hret Ha) as [_ [[t H] | [[u H] | [e [H _]]]]]; discriminate H.
Defined.


(** X9.  Reversing the embedded packet exchanges the two endpoints.  Take
    two indicators of one error message whose embedded IPv4 headers have
    source and destination exchanged, and whose embedded layers are two TCP
    layers or two UDP layers with the ports exchanged, or two ICMPv4
    messages of the same type and identifier: [natSrc] of the one is
    [natDst] of the other, in both directions. *)
Theorem natSrc_natDst_flip (m : ICMPv4.t) (h h' : IPv4.t) (l l' : Layer) :
  In (Type_ (ICMPv4.TypeCode m)) errorTypes ->
  IPv4.SrcIP h' = IPv4.DstIP h ->
  IPv4.DstIP h' = IPv4.SrcIP h ->
  (exists t t', l = LayerTCP t /\ l' = LayerTCP t' /\
                TCP.SrcPort t' = TCP.DstPort t /\ TCP.DstPort t' = TCP.SrcPort t) \/
  (exists u u', l = LayerUDP u /\ l' = LayerUDP u' /\
                UDP.SrcPort u' = UDP.DstPort u /\ UDP.DstPort u' = UDP.SrcPort u) \/
  (exists e e', l = LayerICMPv4 e /\ l' = LayerICMPv4 e' /\
                Type_ (ICMPv4.TypeCode e') = Type_ (ICMPv4.TypeCode e) /\
                ICMPv4.Id e' = ICMPv4.Id e) ->
  natSrc {| layer := m; embIPv4Layer := Some h'; embTransportLayer := Some l';
            embTransportLayerType := LayerType_of l' |} =
  natDst {| layer := m; embIPv4Layer := Some h; embTransportLayer := Some l;
            embTransportLayerType := LayerType_of l |} /\
  natDst {| layer := m; embIPv4Layer := Some h'; embTransportLayer := Some l';
            embTransportLayerType := LayerType_of l' |} =
  natSrc {| layer := m; embIPv4Layer := Some h; embTransportLayer := Some l;
            embTransportLayerType := LayerType_of l |}.
Proof.
  intros He Hsd Hds
    [(t & t' & -> & -> & Hp1 & Hp2) | [(u & u' & -> & -> & Hp1 & Hp2) |
                                       (e & e' & -> & -> & Hty & Hid)]];
    cbn [LayerType_of].
  - destruct (natSrc_natDst_tcp m h t He) as [Hs Hd].
    destruct (natSrc_natDst_tcp m h' t' He) as [Hs' Hd'].
    cbv zeta in Hs, Hd, Hs', Hd'. rewrite Hs, Hd, Hs', Hd'.
    rewrite Hsd, Hds, Hp1, Hp2. split; reflexivity.
  - destruct (natSrc_natDst_udp m h u He) as [Hs Hd].
    destruct (natSrc_natDst_udp m h' u' He) as [Hs' Hd'].
    cbv zeta in Hs, Hd, Hs', Hd'. rewrite Hs, Hd, Hs', Hd'.
    rewrite Hsd, Hds, Hp1, Hp2. split; reflexivity.
  - unfold natSrc, natDst. rewrite !isQuery_error by exact He.
    cbn [bind embTransportLayerType]. rewrite !isEmbQuery_icmpv4. cbv zeta.
    rewrite Hty.
    destruct (caseOf (Type_ (ICMPv4.TypeCode e)) queryTypes);
      [| destruct (caseOf (Type_ (ICMPv4.TypeCode e)) errorTypes)];
      cbn; rewrite ?Hsd, ?Hds, ?Hid; split; reflexivity.
Qed.

(** The datagram 10.0.0.5:5000 -> 8.8.8.8:53 and its reverse. *)
Lemma natSrc_natDst_flip_example :
  natSrc (errorIndicator ICMPv4TypeTimeExceeded
            (ipv4Header 4 IPProtocolUDP ip_8_8_8_8 ip_10_0_0_5)
            (LayerUDP (createTransportLayerUDP 53 5000))) =
  natDst (errorIndicator ICMPv4TypeTimeExceeded
            (ipv4Header 4 IPProtocolUDP ip_10_0_0_5 ip_8_8_8_8)
            (LayerUDP (createTransportLayerUDP 5000 53))).
Proof.
  apply (natSrc_natDst_flip (icmpv4Message ICMPv4TypeTimeExceeded 0 [])
           (ipv4Header 4 IPProtocolUDP ip_10_0_0_5 ip_8_8_8_8)
           (ipv4Header 4 IPProtocolUDP ip_8_8_8_8 ip_10_0_0_5)
           (LayerUDP (createTransportLayerUDP 5000 53))
           (LayerUDP (createTransportLayerUDP 53 5000))).
  - in_cases.
  - reflexivity.
  - reflexivity.
  - right. left.
    exists (createTransportLayerUDP 5000 53), (createTransportLayerUDP 53 5000).
    repeat split; reflexivity.
Defined.

(** X10.  The three type switches draw the same line.  For an indicator
    [i] with an embedded ICMPv4 message [e], and any indicator [j] made for
    [e] as outer message: [isEmbQuery i] returns the boolean that
    [isQuery j] returns, the one panics exactly when the other does, and
    that is exactly when [parseICMPv4Layer] refuses [e] with "type <t> not
    support". *)
Theorem type_switches_agree
    (NewPacket : list byte -> list Layer) (i j : icmpv4Indicator) (e : ICMPv4.t) :
  embTransportLayerType i = LayerTypeICMPv4 ->
  embTransportLayer i = Some (LayerICMPv4 e) ->
  layer j = e ->
  (forall b, isEmbQuery i = Return b <-> isQuery j = Return b) /\
  ((exists v, isEmbQuery i = Panic v) <-> (exists v, isQuery j = Panic v)) /\
  ((exists v, isQuery j = Panic v) <->
     parseICMPv4Layer NewPacket e =
     Error (Errorf_wrap "parse icmp v4 layer"
              (Errorf_icmp_type_not_support (Type_ (ICMPv4.TypeCode e))))).
Proof.
  intros Hty Hl Hj. destruct i as [m oh ol ty]. cbn in Hty, Hl. subst ty ol.
  rewrite isEmbQuery_icmpv4, isQuery_eq. cbv zeta. rewrite Hj.
  destruct (icmp_type_cases (Type_ (ICMPv4.TypeCode e))) as [[Hq Hne] | [[Hnq He] | [Hnq Hne]]].
  - pose proof (parseICMPv4Layer_query NewPacket e Hq) as Hp.
    apply caseOf_In in Hq. rewrite Hq, Hp.
    split; [intros b; tauto |]. split; [tauto |].
    split; [intros [v H]; discriminate H | intros H; discriminate H].
  - pose proof (parseICMPv4Layer_error NewPacket e He) as Hp.
    apply caseOf_not_In in Hnq. apply caseOf_In in He. rewrite Hnq, He.
    split; [intros b; tauto |]. split; [tauto |].
    split; [intros [v H]; discriminate H |].
    intros H. rewrite Hp in H.
    destruct (NewPacket (ICMPv4.Payload e)) as [| n [| l rest]]; try discriminate H;
      destruct n as [h | | | | |]; try discriminate H.
    destruct (IPv4.Version h =? 4); discriminate H.
  - pose proof (parseICMPv4Layer_other NewPacket e Hnq Hne) as Hp.
    apply caseOf_not_In in Hnq, Hne. rewrite Hnq, Hne, Hp.
    split; [intros b; split; intros H; discriminate H |].
    split; [split; intros _; eexists; reflexivity |].
    split; [intros _; reflexivity | intros _; eexists; reflexivity].
Qed.

(** A time-exceeded message around an echo request, and the echo request
    as a message of its own. *)
Lemma type_switches_agree_example :
  isEmbQuery (errorIndicator ICMPv4TypeTimeExceeded
                (ipv4Header 4 1 ip_10_0_0_5 ip_8_8_8_8)
                (LayerICMPv4 (icmpv4Message ICMPv4TypeEchoRequest 7 []))) =
    Return true <->
  isQuery echoRequestIndicator = Return true.
Proof.
  destruct (type_switches_agree (decoded [])
              (errorIndicator ICMPv4TypeTimeExceeded
                 (ipv4Header 4 1 ip_10_0_0_5 ip_8_8_8_8)
                 (LayerICMPv4 (icmpv4Message ICMPv4TypeEchoRequest 7 [])))
              echoRequestIndicator
              (icmpv4Message ICMPv4TypeEchoRequest 7 [])
              eq_refl eq_refl eq_refl) as (H & _).
  exact (H true).
Defined.


(** X11.  [createNetworkLayerIPv4] returns a header exactly when both
    addresses have a 4-byte form, the transport layer is a TCP or a UDP
    layer, and the library binds the header to it.  The header then has
    version 4, header length 5, the don't-fragment flag, the identifier and
    TTL given, protocol 6 for TCP and 17 for UDP, no length and no checksum
    yet, and the two addresses exactly as given: a 16-byte IPv4-mapped
    address is stored in its 16 bytes, not in its 4-byte form. *)
Theorem createNetworkLayerIPv4_returns_iff
    (TCP_SetNetworkLayerForChecksum : TCP.t -> IPv4.t -> outcome TCP.t)
    (UDP_SetNetworkLayerForChecksum : UDP.t -> IPv4.t -> outcome UDP.t)
    (srcIP dstIP : net.IP) (id ttl : Z) (transportLayer : option Layer)
    (h : IPv4.t) (l : Layer) :
  createNetworkLayerIPv4 TCP_SetNetworkLayerForChecksum UDP_SetNetworkLayerForChecksum
    srcIP dstIP id ttl transportLayer = Return (h, l) <->
  net.To4 srcIP <> None /\ net.To4 dstIP <> None /\
  exists protocol,
    h = {| IPv4.Version := 4; IPv4.IHL := 5; IPv4.TOS := 0; IPv4.Length := 0;
           IPv4.Id := id; IPv4.Flags := IPv4DontFragment; IPv4.FragOffset := 0;
           IPv4.TTL := ttl; IPv4.Protocol := protocol; IPv4.Checksum := 0;
           IPv4.SrcIP := srcIP; IPv4.DstIP := dstIP |} /\
    ((exists t t', transportLayer = Some (LayerTCP t) /\ protocol = IPProtocolTCP /\
                   TCP_SetNetworkLayerForChecksum t h = Return t' /\ l = LayerTCP t') \/
     (exists u u', transportLayer = Some (LayerUDP u) /\ protocol = IPProtocolUDP /\
                   UDP_SetNetworkLayerForChecksum u h = Return u' /\ l = LayerUDP u')).
Proof.
  unfold createNetworkLayerIPv4.
  destruct (net.To4 srcIP) as [s4 |], (net.To4 dstIP) as [d4 |]; cbn [isNil orb].
  2, 3, 4: split; [intros H; discriminate H | intros (Hs & Hd & _); contradiction].
  split.
  - intros H. split; [discriminate |]. split; [discriminate |].
    destruct transportLayer as [[h4 | h6 | t | u | e | name] |];
      cbn in H; try discriminate H.
    + unfold IPv4.set_Protocol in H. cbn in H.
      destruct (TCP_SetNetworkLayerForChecksum t _) as [t' | err | v] eqn:Hb;
        try discriminate H.
      injection H as <- <-. exists IPProtocolTCP. split; [reflexivity |].
      left. exists t, t'. now repeat split.
    + unfold IPv4.set_Protocol in H. cbn in H.
      destruct (UDP_SetNetworkLayerForChecksum u _) as [u' | err | v] eqn:Hb;
        try discriminate H.
      injection H as <- <-. exists IPProtocolUDP. split; [reflexivity |].
      right. exists u, u'. now repeat split.
  - intros (_ & _ & protocol & -> & [(t & t' & -> & -> & Hb & ->) |
                                     (u & u' & -> & -> & Hb & ->)]);
      cbn; unfold IPv4.set_Protocol; cbn; now rewrite Hb.
Qed.

(** The mapped address ::ffff:10.0.0.5 as source, around a UDP datagram. *)
Lemma createNetworkLayerIPv4_returns_iff_example :
  exists h,
    createNetworkLayerIPv4 (fun l _ => Return l) (fun l _ => Return l)
      ip_mapped_10_0_0_5 ip_8_8_8_8 1 64
      (Some (LayerUDP (createTransportLayerUDP 5000 53))) =
    Return (h, LayerUDP (createTransportLayerUDP 5000 53)) /\
    IPv4.SrcIP h = ip_mapped_10_0_0_5 /\ IPv4.Protocol h = 17.
Proof.
  eexists. split.
  - apply (createNetworkLayerIPv4_returns_iff (fun l _ => Return l) (fun l _ => Return l)).
    split; [discriminate |]. split; [discriminate |].
    exists IPProtocolUDP. split; [reflexivity |].
    right. exists (createTransportLayerUDP 5000 53), (createTransportLayerUDP 5000 53).
    repeat split; reflexivity.
  - split; reflexivity.
Defined.

(** X12.  The builders stack.  A header that [createNetworkLayerIPv4]
    returns is a header of version 4 whose two addresses have a 4-byte
    form, and [createLinkLayerEthernet] accepts it as network layer: the
    frame has the two hardware addresses given and the EtherType of IPv4,
    0x0800.  Around an IPv6 layer the EtherType is 0x86DD; a network layer
    of any other type is refused with "type <T> not support"; and with a
    nil network layer the call panics. *)
Theorem createLinkLayerEthernet_over_ipv4
    (TCP_SetNetworkLayerForChecksum : TCP.t -> IPv4.t -> outcome TCP.t)
    (UDP_SetNetworkLayerForChecksum : UDP.t -> IPv4.t -> outcome UDP.t)
    (srcIP dstIP : net.IP) (id ttl : Z) (transportLayer : option Layer)
    (srcMAC dstMAC : list byte) (h : IPv4.t) (l : Layer) :
  createNetworkLayerIPv4 TCP_SetNetworkLayerForChecksum UDP_SetNetworkLayerForChecksum
    srcIP dstIP id ttl transportLayer = Return (h, l) ->
  (IPv4.Version h = 4 /\
   net.To4 (IPv4.SrcIP h) <> None /\ net.To4 (IPv4.DstIP h) <> None /\
   createLinkLayerEthernet srcMAC dstMAC (Some (NetworkLayerIPv4 h)) =
     Return {| Ethernet.SrcMAC := srcMAC; Ethernet.DstMAC := dstMAC;
               Ethernet.EthernetType := 2048 |}) /\
  (forall h6,
     createLinkLayerEthernet srcMAC dstMAC (Some (NetworkLayerIPv6 h6)) =
     Return {| Ethernet.SrcMAC := srcMAC; Ethernet.DstMAC := dstMAC;
               Ethernet.EthernetType := 34525 |}) /\
  (forall name,
     createLinkLayerEthernet srcMAC dstMAC (Some (NetworkLayerOther name)) =
     Error (Errorf_wrap "create link layer"
              (Errorf_layer_type_not_support (LayerTypeOther name)))) /\
  createLinkLayerEthernet srcMAC dstMAC None = Panic (panicRuntime nilPointerDereference).
Proof.
  intros H. split; [| repeat split; reflexivity].
  unfold createNetworkLayerIPv4 in H.
  destruct (net.To4 srcIP) as [s4 |] eqn:Hs; [| discriminate H].
  destruct (net.To4 dstIP) as [d4 |] eqn:Hd; [| discriminate H].
  cbn [isNil orb] in H.
  assert (Hh : IPv4.Version h = 4 /\ IPv4.SrcIP h = srcIP /\ IPv4.DstIP h = dstIP).
  { destruct transportLayer as [[h4 | h6 | t | u | e | name] |];
      cbn in H; try discriminate H.
    - destruct (TCP_SetNetworkLayerForChecksum t _) as [t' | err | v];
        try discriminate H.
      injection H as <- _. repeat split; reflexivity.
    - destruct (UDP_SetNetworkLayerForChecksum u _) as [u' | err | v];
        try discriminate H.
      injection H as <- _. repeat split; reflexivity. }
  destruct Hh as (Hv & -> & ->). rewrite Hs, Hd.
  repeat split; try assumption; try discriminate; reflexivity.
Qed.

(** A UDP datagram from 10.0.0.5 to 8.8.8.8 in an Ethernet frame. *)
Lemma createLinkLayerEthernet_over_ipv4_example :
  exists h,
    createNetworkLayerIPv4 (fun l _ => Return l) (fun l _ => Return l)
      ip_10_0_0_5 ip_8_8_8_8 1 64
      (Some (LayerUDP (createTransportLayerUDP 5000 53))) =
    Return (h, LayerUDP (createTransportLayerUDP 5000 53)) /\
    createLinkLayerEthernet [x02; x00; x00; x00; x00; x01] [x02; x00; x00; x00; x00; x02]
      (Some (NetworkLayerIPv4 h)) =
    Return {| Ethernet.SrcMAC := [x02; x00; x00; x00; x00; x01];
              Ethernet.DstMAC := [x02; x00; x00; x00; x00; x02];
              Ethernet.EthernetType := 2048 |}.
Proof.
  eexists. split; [reflexivity |].
  apply (createLinkLayerEthernet_over_ipv4 (fun l _ => Return l) (fun l _ => Return l)
           ip_10_0_0_5 ip_8_8_8_8 1 64
           (Some (LayerUDP (createTransportLayerUDP 5000 53)))
           [x02; x00; x00; x00; x00; x01] [x02; x00; x00; x00; x00; x02]
           _ (LayerUDP (createTransportLayerUDP 5000 53))).
  reflexivity.
Defined.

(** X13.  Stripping is idempotent and keeps what identifies the message.
    The message [newPureICMPv4Layer] makes has the type+code, identifier
    and sequence number of the indicator's message, no checksum and no
    payload; an indicator made for it is stripped to the same message and
    classified by [isQuery] as the original was; and when the original is a
    query, [parseICMPv4Layer] accepts the stripped message, whatever the
    decoder, with an indicator whose stripped message is again the same. *)
Theorem newPureICMPv4Layer_idempotent
    (NewPacket : list byte -> list Layer) (i : icmpv4Indicator) :
  ICMPv4.TypeCode (newPureICMPv4Layer i) = ICMPv4.TypeCode (layer i) /\
  ICMPv4.Id (newPureICMPv4Layer i) = id i /\
  ICMPv4.Seq (newPureICMPv4Layer i) = ICMPv4.Seq (layer i) /\
  ICMPv4.Checksum (newPureICMPv4Layer i) = 0 /\
  ICMPv4.Payload (newPureICMPv4Layer i) = [] /\
  (forall j, layer j = newPureICMPv4Layer i ->
     newPureICMPv4Layer j = newPureICMPv4Layer i /\
     isQuery j = isQuery i /\
     id j = id i) /\
  (isQuery i = Return true ->
     exists j, parseICMPv4Layer NewPacket (newPureICMPv4Layer i) = Return j /\
               newPureICMPv4Layer j = newPureICMPv4Layer i /\
               isQuery j = Return true).
Proof.
  repeat split; try reflexivity.
  - unfold newPureICMPv4Layer. now rewrite H.
  - rewrite !isQuery_eq. cbv zeta. now rewrite H.
  - unfold id. now rewrite H.
  - intros Hq.
    assert (Hin : In (Type_ (ICMPv4.TypeCode (newPureICMPv4Layer i))) queryTypes).
    { change (In (Type_ (ICMPv4.TypeCode (layer i))) queryTypes).
      rewrite isQuery_eq in Hq. cbv zeta in Hq. apply caseOf_In.
      destruct (caseOf (Type_ (ICMPv4.TypeCode (layer i))) queryTypes); [reflexivity |].
      destruct (caseOf (Type_ (ICMPv4.TypeCode (layer i))) errorTypes); discriminate Hq. }
    eexists. split; [now apply parseICMPv4Layer_query |].
    split; [reflexivity |]. now apply isQuery_query.
Qed.

(** An echo request with identifier 7. *)
Lemma newPureICMPv4Layer_idempotent_example :
  exists j,
    parseICMPv4Layer (decoded []) (newPureICMPv4Layer echoRequestIndicator) = Return j /\
    newPureICMPv4Layer j = newPureICMPv4Layer echoRequestIndicator /\
    isQuery j = Return true.
Proof.
  apply (newPureICMPv4Layer_idempotent (decoded []) echoRequestIndicator).
  reflexivity.
Defined.


(** X14.  Of the outer message, [natSrc] and [natDst] look at nothing but
    the class of its type: two indicators with the same embedded header,
    layer and recorded type, made for two error messages that may differ in
    type, code, identifier, sequence number and payload, get the same
    endpoints, and the same panics. *)
Theorem natSrc_natDst_outer_message (m m' : ICMPv4.t)
    (oh : option IPv4.t) (ol : option Layer) (ty : LayerType) :
  In (Type_ (ICMPv4.TypeCode m)) errorTypes ->
  In (Type_ (ICMPv4.TypeCode m')) errorTypes ->
  natSrc {| layer := m; embIPv4Layer := oh; embTransportLayer := ol;
            embTransportLayerType := ty |} =
  natSrc {| layer := m'; embIPv4Layer := oh; embTransportLayer := ol;
            embTransportLayerType := ty |} /\
  natDst {| layer := m; embIPv4Layer := oh; embTransportLayer := ol;
            embTransportLayerType := ty |} =
  natDst {| layer := m'; embIPv4Layer := oh; embTransportLayer := ol;
            embTransportLayerType := ty |}.
Proof.
  intros He He'. unfold natSrc, natDst.
  rewrite (isQuery_error {| layer := m; embIPv4Layer := oh; embTransportLayer := ol;
                            embTransportLayerType := ty |} He).
  rewrite (isQuery_error {| layer := m'; embIPv4Layer := oh; embTransportLayer := ol;
                            embTransportLayerType := ty |} He').
  split; reflexivity.
Qed.

(** A destination-unreachable and a time-exceeded message around the same
    UDP datagram. *)
Lemma natSrc_natDst_outer_message_example :
  natSrc (errorIndicator ICMPv4TypeDestinationUnreachable
            (ipv4Header 4 IPProtocolUDP ip_10_0_0_5 ip_8_8_8_8)
            (LayerUDP (createTransportLayerUDP 5000 53))) =
  natSrc {| layer := icmpv4Message ICMPv4TypeTimeExceeded 99 [x45; x00];
            embIPv4Layer := Some (ipv4Header 4 IPProtocolUDP ip_10_0_0_5 ip_8_8_8_8);
            embTransportLayer := Some (LayerUDP (createTransportLayerUDP 5000 53));
            embTransportLayerType := LayerTypeUDP |}.
Proof.
  apply (natSrc_natDst_outer_message
           (icmpv4Message ICMPv4TypeDestinationUnreachable 0 [])
           (icmpv4Message ICMPv4TypeTimeExceeded 99 [x45; x00])
           (Some (ipv4Header 4 IPProtocolUDP ip_10_0_0_5 ip_8_8_8_8))
           (Some (LayerUDP (createTransportLayerUDP 5000 53))) LayerTypeUDP);
    in_cases.
Defined.


(** X15.  The four builders of TCP layers have disjoint ranges: whatever
    their arguments, no two of them build the same layer, the flags SYN,
    ACK and PSH telling them apart.  What they build has the ports and the
    sequence number given, header length 5, window 65535, none of FIN, RST
    and URG, and no checksum yet. *)
Theorem tcp_layer_builders_distinct
    (srcPort dstPort seq ack srcPort' dstPort' seq' ack' : Z) :
  createTCPLayerSYN srcPort dstPort seq <> createTCPLayerSYNACK srcPort' dstPort' seq' ack' /\
  createTCPLayerSYN srcPort dstPort seq <> createTCPLayerACK srcPort' dstPort' seq' ack' /\
  createTCPLayerSYN srcPort dstPort seq <> createTransportLayerTCP srcPort' dstPort' seq' ack' /\
  createTCPLayerSYNACK srcPort dstPort seq ack <> createTCPLayerACK srcPort' dstPort' seq' ack' /\
  createTCPLayerSYNACK srcPort dstPort seq ack <>
    createTransportLayerTCP srcPort' dstPort' seq' ack' /\
  createTCPLayerACK srcPort dstPort seq ack <>
    createTransportLayerTCP srcPort' dstPort' seq' ack' /\
  (forall l,
     In l [createTCPLayerSYN srcPort dstPort seq;
           createTCPLayerSYNACK srcPort dstPort seq ack;
           createTCPLayerACK srcPort dstPort seq ack;
           createTransportLayerTCP srcPort dstPort seq ack] ->
     TCP.SrcPort l = srcPort /\ TCP.DstPort l = dstPort /\ TCP.Seq l = seq /\
     TCP.DataOffset l = 5 /\ TCP.Window l = 65535 /\
     TCP.FIN l = false /\ TCP.RST l = false /\ TCP.URG l = false /\
     TCP.Checksum l = 0).
Proof.
  split; [intros H; apply (f_equal TCP.ACK) in H; discriminate H |].
  split; [intros H; apply (f_equal TCP.SYN) in H; discriminate H |].
  split; [intros H; apply (f_equal TCP.SYN) in H; discriminate H |].
  split; [intros H; apply (f_equal TCP.SYN) in H; discriminate H |].
  split; [intros H; apply (f_equal TCP.SYN) in H; discriminate H |].
  split; [intros H; apply (f_equal TCP.PSH) in H; discriminate H |].
  intros l [<- | [<- | [<- | [<- | []]]]]; repeat split; reflexivity.
Qed.

(** The layer that acknowledges a SYN-ACK. *)
Lemma tcp_layer_builders_distinct_example :
  TCP.DataOffset (createTCPLayerACK 1234 80 1001 5001) = 5 /\
  TCP.Window (createTCPLayerACK 1234 80 1001 5001) = 65535.
Proof.
  destruct (tcp_layer_builders_distinct 1234 80 1001 5001 1234 80 1001 5001)
    as (_ & _ & _ & _ & _ & _ & H).
  destruct (H (createTCPLayerACK 1234 80 1001 5001)) as (_ & _ & _ & Ho & Hw & _).
  - right. right. left. reflexivity.
  - split; assumption.
Defined.

End pcap.
